(** * The Stripe Terminal connection service (src/connectionService.js)

    A shallow embedding of the class [STCS] built by
    [createConnectionService], and the properties its specification states.

    How the JavaScript is read:

    - Option values and reader identifiers are JavaScript values; the ones
      the service handles are [undefined], [null] and strings ([jsval]).
      Truthiness, [===], [||] and template-literal conversion are written
      out on that type.
    - [this] is the record [STCS]; [AsyncStorage] is a finite map from keys
      to strings.  Both are threaded through every method ([state]).
    - A method is a function from the state to a [run]: how its promise
      settles, the state it leaves, and the effects it had on the outside,
      in order: events emitted on [this.emitter], calls made on the
      [StripeTerminal] module and on [AsyncStorage], subscriptions removed.
    - The two collaborators answer as the records [Adapter] and [Backend]
      say: every awaited call resolves or rejects.  No method issues the
      same call twice, so one answer per call describes any behaviour of
      the collaborators during one method; a sequence of methods takes one
      pair of records per step.
    - [await] on a rejected promise ends the method with that rejection.
      An [async] method called without [await] has its effects and its
      settlement is dropped ([detached]).  Each awaited call is taken to
      settle before anything else touches the service: handlers do not
      interleave, and the listeners of [this.emitter] do not call back
      into the service.  [addListener] only registers such a listener. *)

From Stdlib Require Import String Ascii List Bool ZArith Lia.
From stdpp Require Import base gmap strings list.

Local Open Scope string_scope.
Local Open Scope list_scope.

(** ** JavaScript values *)

Inductive jsval : Type :=
  | JUndefined
  | JNull
  | JStr (s : string).

#[global] Instance jsval_eq_dec : EqDecision jsval.
Proof. solve_decision. Defined.

(** [if (v)], [!v] *)
Definition truthy (v : jsval) : bool :=
  match v with
  | JStr s => negb (String.eqb s EmptyString)
  | _ => false
  end.

(** [a === b] *)
Definition strict_eq (a b : jsval) : bool := bool_decide (a = b).

(** [a || b] *)
Definition or_else (a b : jsval) : jsval := if truthy a then a else b.

(** [`${v}`] *)
Definition to_string (v : jsval) : string :=
  match v with
  | JUndefined => "undefined"
  | JNull => "null"
  | JStr s => s
  end.

(** The double-quote character of a template literal. *)
Definition dquote : string := String (ascii_of_nat 34) EmptyString.

(** [l.join(sep)] *)
Fixpoint join (sep : string) (l : list string) : string :=
  match l with
  | [] => EmptyString
  | [x] => x
  | x :: rest => x +:+ sep +:+ join sep rest
  end.

(** [l.indexOf(v)]: the first position holding a value [=== v], else -1. *)
Fixpoint indexOf_from (i : Z) (l : list string) (v : jsval) : Z :=
  match l with
  | [] => (-1)%Z
  | x :: rest => if strict_eq (JStr x) v then i else indexOf_from (i + 1)%Z rest v
  end.

Definition indexOf (l : list string) (v : jsval) : Z := indexOf_from 0%Z l v.

(** A thrown value or a rejection reason. *)
Inductive error : Type :=
  | Error (message : string)
  | TypeError.

(** How a promise settles. *)
Inductive settled (A : Type) : Type :=
  | Resolved (a : A)
  | Rejected (e : error).
Arguments Resolved {A} a.
Arguments Rejected {A} e.

(** A reader record as the adapter hands it out; the service reads only
    its [serialNumber]. *)
Record Reader : Type := { serialNumber : jsval }.

#[global] Instance Reader_eq_dec : EqDecision Reader.
Proof. solve_decision. Defined.

(** ** Static members of STCS *)

Definition StorageKey : string := "@STCS:persistedSerialNumber".

Definition EventConnectionError : string := "connectionError".
Definition EventPersistedReaderNotFound : string := "persistedReaderNotFound".
Definition EventReadersDiscovered : string := "readersDiscovered".
Definition EventReaderPersisted : string := "readerPersisted".
Definition EventLog : string := "log".

Definition PolicyAuto : string := "auto".
Definition PolicyPersist : string := "persist".
Definition PolicyManual : string := "manual".
Definition PolicyPersistManual : string := "persist-manual".
Definition Policies : list string :=
  [PolicyAuto; PolicyPersist; PolicyManual; PolicyPersistManual].

Definition DesiredReaderAny : string := "any".

(** ** Effects *)

Inductive payload : Type :=
  | PReaders (readers : list Reader)
  | PError (e : error)
  | PValue (v : jsval).

Inductive terminal_call : Type :=
  | AddReadersDiscoveredListener
  | AddDidDisconnectUnexpectedlyFromReaderListener
  | ConnectReader (serial : jsval)
  | AbortDiscoverReaders
  | DisconnectReader
  | DiscoverReaders (deviceType discoveryMode : jsval)
  | GetConnectedReader.

Inductive storage_call : Type :=
  | GetItem (key : string)
  | SetItem (key value : string)
  | RemoveItem (key : string).

(** The handles kept in [this.listeners]. *)
Inductive subscription : Type :=
  | ReadersDiscoveredSubscription
  | DidDisconnectUnexpectedlySubscription.

Inductive effect : Type :=
  | Emit (event : string) (p : payload)
  | Terminal (c : terminal_call)
  | Storage (c : storage_call)
  | Remove (l : subscription).

#[global] Instance error_eq_dec : EqDecision error.
Proof. solve_decision. Defined.
#[global] Instance payload_eq_dec : EqDecision payload.
Proof. solve_decision. Defined.
#[global] Instance terminal_call_eq_dec : EqDecision terminal_call.
Proof. solve_decision. Defined.
#[global] Instance storage_call_eq_dec : EqDecision storage_call.
Proof. solve_decision. Defined.
#[global] Instance subscription_eq_dec : EqDecision subscription.
Proof. solve_decision. Defined.
#[global] Instance effect_eq_dec : EqDecision effect.
Proof. solve_decision. Defined.

(** ** The collaborators *)

(** The [StripeTerminal] module: its two constants and, for each
    asynchronous call, how the returned promise settles. *)
Record Adapter : Type := {
  DeviceTypeChipper2X : jsval;
  DiscoveryMethodBluetoothProximity : jsval;
  getConnectedReader : settled (option Reader);
  connectReader : jsval -> settled Reader;
  abortDiscoverReaders : settled unit;
  disconnectReader : settled unit;
  discoverReaders : jsval -> jsval -> settled unit
}.

(** [AsyncStorage]: the map itself is part of the state; the backend says
    which calls fail. *)
Record Backend : Type := {
  getItem_fails : option error;
  setItem_fails : option error;
  removeItem_fails : option error
}.

(** ** State and the method monad *)

Record STCS : Type := {
  policy : jsval;
  deviceType : jsval;
  discoveryMode : jsval;
  desiredReader : jsval;
  listeners : list subscription
}.

Record state : Type := {
  this : STCS;
  storage : gmap string string
}.

Record run (A : Type) : Type := Run {
  result : settled A;
  final : state;
  effects : list effect
}.
Arguments Run {A} result final effects.
Arguments result {A} r.
Arguments final {A} r.
Arguments effects {A} r.

Definition M (A : Type) : Type := state -> run A.

Definition ret {A} (a : A) : M A := fun s => Run (Resolved a) s [].

Definition throw {A} (e : error) : M A := fun s => Run (Rejected e) s [].

Definition bind {A B} (m : M A) (k : A -> M B) : M B := fun s =>
  let r := m s in
  match result r with
  | Resolved a =>
      let r' := k a (final r) in
      Run (result r') (final r') (effects r ++ effects r')
  | Rejected e => Run (Rejected e) (final r) (effects r)
  end.

Declare Scope js_scope.
Delimit Scope js_scope with js.
Notation "x <- m ;; k" := (bind m (fun x => k))
  (at level 100, m at next level, right associativity) : js_scope.
Notation "m ;; k" := (bind m (fun _ => k))
  (at level 100, right associativity) : js_scope.
Local Open Scope js_scope.

(** An effect on the outside. *)
Definition perform (e : effect) : M unit := fun s => Run (Resolved tt) s [e].

(** [this.emitter.emit(event, p)] *)
Definition emit (event : string) (p : payload) : M unit := perform (Emit event p).

(** [await StripeTerminal.c(...)], the promise settling as [r]. *)
Definition await {A} (c : terminal_call) (r : settled A) : M A := fun s =>
  Run r s [Terminal c].

(** [StripeTerminal.c(...)] kept as a promise: the call is made, the
    settlement is a value for [.then] and [.catch]. *)
Definition promise {A} (c : terminal_call) (r : settled A) : M (settled A) := fun s =>
  Run (Resolved r) s [Terminal c].

(** An [async] method called without [await]. *)
Definition detached {A} (m : M A) : M unit := fun s =>
  let r := m s in Run (Resolved tt) (final r) (effects r).

(** [p.then(on_resolved).catch(on_rejected)], the chained promise dropped:
    [catch] also receives what [on_resolved] throws. *)
Definition then_catch {A} (p : settled A)
    (on_resolved : A -> M unit) (on_rejected : error -> M unit) : M unit :=
  detached
    (match p with
     | Resolved a => fun s =>
         let r := on_resolved a s in
         match result r with
         | Resolved _ => r
         | Rejected e =>
             let r' := on_rejected e (final r) in
             Run (result r') (final r') (effects r ++ effects r')
         end
     | Rejected e => on_rejected e
     end).

Definition get_this : M STCS := fun s => Run (Resolved (this s)) s [].

(** [this.desiredReader = v] *)
Definition set_desiredReader (v : jsval) : M unit := fun s =>
  Run (Resolved tt)
      {| this := {| policy := policy (this s);
                    deviceType := deviceType (this s);
                    discoveryMode := discoveryMode (this s);
                    desiredReader := v;
                    listeners := listeners (this s) |};
         storage := storage s |}
      [].

(** [l.forEach(f)] *)
Fixpoint forEach {A} (f : A -> M unit) (l : list A) : M unit :=
  match l with
  | [] => ret tt
  | x :: rest => f x ;; forEach f rest
  end.

(** [if (c) { m }] *)
Definition when (c : bool) (m : M unit) : M unit := if c then m else ret tt.

(** ** The class *)

(** The object passed to the constructor: [{ policy, deviceType,
    discoveryMode }]; an absent property is [undefined]. *)
Module Options.
Record t : Type := {
  policy : jsval;
  deviceType : jsval;
  discoveryMode : jsval
}.
End Options.

(** The object [new] hands to the constructor: no property assigned yet. *)
Definition fresh : STCS :=
  {| policy := JUndefined;
     deviceType := JUndefined;
     discoveryMode := JUndefined;
     desiredReader := JUndefined;
     listeners := [] |}.

Section Service.

Variable StripeTerminal : Adapter.
Variable AsyncStorage : Backend.

(** [await AsyncStorage.getItem(key)] *)
Definition getItem (key : string) : M jsval := fun s =>
  Run (match getItem_fails AsyncStorage with
       | Some e => Rejected e
       | None =>
           Resolved (match storage s !! key with
                     | Some v => JStr v
                     | None => JNull
                     end)
       end)
      s [Storage (GetItem key)].

(** [await AsyncStorage.setItem(key, value)] *)
Definition setItem (key value : string) : M unit := fun s =>
  match setItem_fails AsyncStorage with
  | Some e => Run (Rejected e) s [Storage (SetItem key value)]
  | None =>
      Run (Resolved tt)
          {| this := this s; storage := <[key := value]> (storage s) |}
          [Storage (SetItem key value)]
  end.

(** [await AsyncStorage.removeItem(key)] *)
Definition removeItem (key : string) : M unit := fun s =>
  match removeItem_fails AsyncStorage with
  | Some e => Run (Rejected e) s [Storage (RemoveItem key)]
  | None =>
      Run (Resolved tt)
          {| this := this s; storage := delete key (storage s) |}
          [Storage (RemoveItem key)]
  end.

(** Lines 27-52.  [this.emitter] is the effect list; the two bound
    handlers are [onReadersDiscovered] and [onUnexpectedDisconnect]
    below. *)
Definition constructor (options : Options.t) : M unit := fun s =>
  let s1 :=
    {| this :=
         {| policy := Options.policy options;
            deviceType :=
              or_else (Options.deviceType options)
                      (DeviceTypeChipper2X StripeTerminal);
            discoveryMode :=
              or_else (Options.discoveryMode options)
                      (DiscoveryMethodBluetoothProximity StripeTerminal);
            desiredReader := desiredReader (this s);
            listeners := listeners (this s) |};
       storage := storage s |} in
  if (indexOf Policies (Options.policy options) =? -1)%Z then
    Run (Rejected
           (Error ("Invalid policy passed to STCS: got " +:+ dquote +:+
                   to_string (Options.policy options) +:+ dquote +:+
                   ", expects " +:+ dquote +:+ join "|" Policies +:+ dquote)))
        s1 []
  else
    Run (Resolved tt)
        {| this :=
             {| policy := policy (this s1);
                deviceType := deviceType (this s1);
                discoveryMode := discoveryMode (this s1);
                desiredReader := JNull;
                listeners := [ReadersDiscoveredSubscription;
                              DidDisconnectUnexpectedlySubscription] |};
           storage := storage s1 |}
        [Terminal AddReadersDiscoveredListener;
         Terminal AddDidDisconnectUnexpectedlyFromReaderListener].

(** Lines 170-175. *)
Definition getReader : M (option Reader) :=
  reader <- await GetConnectedReader (getConnectedReader StripeTerminal) ;;
  self <- get_this ;;
  ret (match reader with
       | Some r =>
           if strict_eq (serialNumber r) (desiredReader self)
           then Some r else None
       | None => None
       end).

(** Lines 123-149. *)
Definition connect (serialNumber : jsval) : M unit :=
  emit EventLog
       (PValue (JStr ("Connecting to reader: " +:+ dquote +:+
                      to_string (or_else serialNumber (JStr "any")) +:+
                      dquote +:+ "..."))) ;;
  when (truthy serialNumber) (set_desiredReader serialNumber) ;;
  self <- get_this ;;
  when (negb (truthy (desiredReader self)))
       (set_desiredReader (JStr DesiredReaderAny)) ;;
  currentReader <- getReader ;;
  match currentReader with
  | Some _ => ret tt
  | None =>
      await AbortDiscoverReaders (abortDiscoverReaders StripeTerminal) ;;
      await DisconnectReader (disconnectReader StripeTerminal) ;;
      self <- get_this ;;
      await (DiscoverReaders (deviceType self) (discoveryMode self))
            (discoverReaders StripeTerminal (deviceType self) (discoveryMode self))
  end.

(** Lines 151-157. *)
Definition discover : M unit :=
  await AbortDiscoverReaders (abortDiscoverReaders StripeTerminal) ;;
  self <- get_this ;;
  await (DiscoverReaders (deviceType self) (discoveryMode self))
        (discoverReaders StripeTerminal (deviceType self) (discoveryMode self)).

(** Lines 181-184. *)
Definition getPersistedReaderSerialNumber : M jsval :=
  serialNumber <- getItem StorageKey ;;
  ret serialNumber.

(** Lines 186-193.  A truthy [serialNumber] is a non-empty string, which
    [to_string] leaves as it is. *)
Definition setPersistedReaderSerialNumber (serialNumber : jsval) : M unit :=
  (if negb (truthy serialNumber)
   then removeItem StorageKey
   else setItem StorageKey (to_string serialNumber)) ;;
  emit EventReaderPersisted (PValue serialNumber).

(** Lines 159-168. *)
Definition disconnect : M unit :=
  self <- get_this ;;
  (if strict_eq (policy self) (JStr PolicyPersist) ||
      strict_eq (policy self) (JStr PolicyPersistManual)
   then
     setPersistedReaderSerialNumber JNull ;;
     set_desiredReader JNull
   else ret tt) ;;
  await DisconnectReader (disconnectReader StripeTerminal).

(** Lines 54-116. *)
Definition onReadersDiscovered (readers : list Reader) : M unit :=
  emit EventReadersDiscovered (PReaders readers) ;;
  if (length readers =? 0)%nat then ret tt else
  self <- get_this ;;
  if negb (truthy (desiredReader self)) then ret tt else
  let foundReader :=
    find (fun r => strict_eq (serialNumber r) (desiredReader self)) readers in
  connectionPromise <-
    match foundReader with
    | Some r =>
        p <- promise (ConnectReader (serialNumber r))
                     (connectReader StripeTerminal (serialNumber r)) ;;
        ret (Some p)
    | None =>
        if strict_eq (policy self) (JStr PolicyAuto) ||
           (strict_eq (policy self) (JStr PolicyPersist) &&
            negb (truthy (desiredReader self))) ||
           strict_eq (desiredReader self) (JStr DesiredReaderAny)
        then
          match readers !! 0%nat with
          | Some r0 =>
              p <- promise (ConnectReader (serialNumber r0))
                           (connectReader StripeTerminal (serialNumber r0)) ;;
              ret (Some p)
          | None => throw TypeError
          end
        else ret None
    end ;;
  match connectionPromise with
  | Some p =>
      then_catch p
        (fun r =>
           set_desiredReader (serialNumber r) ;;
           self <- get_this ;;
           when (strict_eq (policy self) (JStr PolicyPersist) ||
                 strict_eq (policy self) (JStr PolicyPersistManual))
                (detached (setPersistedReaderSerialNumber (desiredReader self))))
        (fun e =>
           emit EventConnectionError (PError e) ;;
           self <- get_this ;;
           when (negb (strict_eq (policy self) (JStr PolicyManual)))
                (detached (connect JUndefined)))
  | None =>
      emit EventPersistedReaderNotFound (PReaders readers) ;;
      detached (connect JUndefined)
  end.

(** Lines 118-121. *)
Definition onUnexpectedDisconnect : M unit :=
  detached (connect JUndefined).

(** Lines 195-209. *)
Definition start : M unit :=
  self <- get_this ;;
  if strict_eq (policy self) (JStr PolicyAuto) then
    detached (connect JUndefined)
  else if strict_eq (policy self) (JStr PolicyPersist) ||
          strict_eq (policy self) (JStr PolicyPersistManual) then
    serialNumber <- getPersistedReaderSerialNumber ;;
    self <- get_this ;;
    when (strict_eq (policy self) (JStr PolicyPersist) || truthy serialNumber)
         (detached (connect serialNumber))
  else ret tt.

(** Lines 211-214. *)
Definition stop : M unit :=
  await DisconnectReader (disconnectReader StripeTerminal) ;;
  self <- get_this ;;
  forEach (fun l => perform (Remove l)) (listeners self).

(** Lines 4 and 217-219: [new STCS(options)]. *)
Definition createConnectionService (options : Options.t)
    (store : gmap string string) : run unit :=
  constructor options {| this := fresh; storage := store |}.

End Service.

(** ** The variant of the discovery handler used for comparison *)

Section Variant.

Variable StripeTerminal : Adapter.
Variable AsyncStorage : Backend.

(** [onReadersDiscovered] with the disjunct
    [this.policy === STCS.PolicyPersist && !this.desiredReader] (line 82)
    taken out of the [else if] condition, everything else as in the
    source. *)
Definition onReadersDiscovered_without_unset_disjunct
    (readers : list Reader) : M unit :=
  emit EventReadersDiscovered (PReaders readers) ;;
  if (length readers =? 0)%nat then ret tt else
  self <- get_this ;;
  if negb (truthy (desiredReader self)) then ret tt else
  let foundReader :=
    find (fun r => strict_eq (serialNumber r) (desiredReader self)) readers in
  connectionPromise <-
    match foundReader with
    | Some r =>
        p <- promise (ConnectReader (serialNumber r))
                     (connectReader StripeTerminal (serialNumber r)) ;;
        ret (Some p)
    | None =>
        if strict_eq (policy self) (JStr PolicyAuto) ||
           strict_eq (desiredReader self) (JStr DesiredReaderAny)
        then
          match readers !! 0%nat with
          | Some r0 =>
              p <- promise (ConnectReader (serialNumber r0))
                           (connectReader StripeTerminal (serialNumber r0)) ;;
              ret (Some p)
          | None => throw TypeError
          end
        else ret None
    end ;;
  match connectionPromise with
  | Some p =>
      then_catch p
        (fun r =>
           set_desiredReader (serialNumber r) ;;
           self <- get_this ;;
           when (strict_eq (policy self) (JStr PolicyPersist) ||
                 strict_eq (policy self) (JStr PolicyPersistManual))
                (detached (setPersistedReaderSerialNumber AsyncStorage
                             (desiredReader self))))
        (fun e =>
           emit EventConnectionError (PError e) ;;
           self <- get_this ;;
           when (negb (strict_eq (policy self) (JStr PolicyManual)))
                (detached (connect StripeTerminal JUndefined)))
  | None =>
      emit EventPersistedReaderNotFound (PReaders readers) ;;
      detached (connect StripeTerminal JUndefined)
  end.

End Variant.

(** ** The public surface, as one type of operations *)

(** Every entry point of the service: the methods a caller can invoke and
    the two handlers the adapter invokes. *)
Inductive operation : Type :=
  | OnReadersDiscovered (readers : list Reader)
  | OnUnexpectedDisconnect
  | Connect (serialNumber : jsval)
  | Discover
  | Disconnect
  | GetReader
  | GetPersistedReaderSerialNumber
  | SetPersistedReaderSerialNumber (serialNumber : jsval)
  | Start
  | Stop.

(** The value a method resolves with is of no interest here. *)
Definition forget {A} (m : M A) : M unit := fun s =>
  let r := m s in
  Run (match result r with
       | Resolved _ => Resolved tt
       | Rejected e => Rejected e
       end)
      (final r) (effects r).

Definition invoke (StripeTerminal : Adapter) (AsyncStorage : Backend)
    (op : operation) : M unit :=
  match op with
  | OnReadersDiscovered readers =>
      onReadersDiscovered StripeTerminal AsyncStorage readers
  | OnUnexpectedDisconnect => onUnexpectedDisconnect StripeTerminal
  | Connect serialNumber => connect StripeTerminal serialNumber
  | Discover => discover StripeTerminal
  | Disconnect => disconnect StripeTerminal AsyncStorage
  | GetReader => forget (getReader StripeTerminal)
  | GetPersistedReaderSerialNumber =>
      forget (getPersistedReaderSerialNumber AsyncStorage)
  | SetPersistedReaderSerialNumber serialNumber =>
      setPersistedReaderSerialNumber AsyncStorage serialNumber
  | Start => start StripeTerminal AsyncStorage
  | Stop => stop StripeTerminal
  end.

(** A session: operations one after the other, the collaborators answering
    each step in their own way.  A rejected operation does not stop the
    session. *)
Fixpoint session (steps : list (Adapter * Backend * operation)) (s : state)
    : state * list effect :=
  match steps with
  | [] => (s, [])
  | (adapter, backend, op) :: rest =>
      let r := invoke adapter backend op s in
      let '(s', es) := session rest (final r) in
      (s', effects r ++ es)
  end.

(** ** Observations on effect lists *)

(** The calls that write or remove an item of [AsyncStorage]. *)
Definition is_store_write (e : effect) : bool :=
  match e with
  | Storage (SetItem _ _) | Storage (RemoveItem _) => true
  | _ => false
  end.

Definition store_writes (es : list effect) : list effect :=
  List.filter is_store_write es.

(** The identifiers [connectReader] was called with. *)
Fixpoint connect_calls (es : list effect) : list jsval :=
  match es with
  | [] => []
  | Terminal (ConnectReader sn) :: rest => sn :: connect_calls rest
  | _ :: rest => connect_calls rest
  end.

(** The calls made on the [StripeTerminal] module. *)
Fixpoint terminal_calls (es : list effect) : list terminal_call :=
  match es with
  | [] => []
  | Terminal c :: rest => c :: terminal_calls rest
  | _ :: rest => terminal_calls rest
  end.

(** What [AsyncStorage.getItem(STCS.StorageKey)] resolves with. *)
Definition persisted (store : gmap string string) : jsval :=
  match store !! StorageKey with
  | Some v => JStr v
  | None => JNull
  end.

(** The log line [connect] starts with. *)
Definition connecting_to (target : string) : effect :=
  Emit EventLog
       (PValue (JStr ("Connecting to reader: " +:+ dquote +:+ target +:+
                      dquote +:+ "..."))).

(** ** Vocabulary of the properties *)

(** The state [this.desiredReader = v] leaves. *)
Definition with_desiredReader (v : jsval) (s : state) : state :=
  final (set_desiredReader v s).

(** [this.desiredReader] once [connect(serialNumber)] has settled its
    target: the argument when one is given, else the previous value, else
    the sentinel. *)
Definition desired_after_connect (serialNumber previous : jsval) : jsval :=
  if truthy serialNumber then serialNumber
  else if truthy previous then previous
  else JStr DesiredReaderAny.

(** Does the adapter report a connected reader with this identifier? *)
Definition reports (reported : option Reader) (id : jsval) : Prop :=
  exists r, reported = Some r /\ serialNumber r = id.

Definition reportsb (reported : option Reader) (id : jsval) : bool :=
  match reported with
  | Some r => strict_eq (serialNumber r) id
  | None => false
  end.

(** The state [disconnect] has reached, under a persisting policy, when
    it calls the adapter. *)
Definition forgotten (s : state) : state :=
  with_desiredReader JNull
    {| this := this s; storage := delete StorageKey (storage s) |}.

(** The message of the error the constructor throws. *)
Definition invalid_policy (p : jsval) : error :=
  Error ("Invalid policy passed to STCS: got " +:+ dquote +:+ to_string p +:+
         dquote +:+ ", expects " +:+ dquote +:+
         "auto|persist|manual|persist-manual" +:+ dquote).

(** The identifier the handler calls [connectReader] with, if any. *)
Definition target (self : STCS) (readers : list Reader) : option jsval :=
  match find (fun r => strict_eq (serialNumber r) (desiredReader self)) readers with
  | Some r => Some (serialNumber r)
  | None =>
      if strict_eq (policy self) (JStr PolicyAuto) ||
         (strict_eq (policy self) (JStr PolicyPersist) &&
          negb (truthy (desiredReader self))) ||
         strict_eq (desiredReader self) (JStr DesiredReaderAny)
      then serialNumber <$> readers !! 0%nat
      else None
  end.

(** What [target] is, in the words of the three cases. *)
Definition matching (self : STCS) (readers : list Reader) : Prop :=
  exists x, In x readers /\ serialNumber x = desiredReader self.

Definition opportunistic (self : STCS) : Prop :=
  policy self = JStr PolicyAuto \/
  (policy self = JStr PolicyPersist /\ truthy (desiredReader self) = false) \/
  desiredReader self = JStr DesiredReaderAny.

(** A run that wrote nothing to the store, left it as it was, and kept the
    policy. *)
Definition untouched (s : state) (r : run unit) : Prop :=
  store_writes (effects r) = [] /\
  storage (final r) = storage s /\
  policy (this (final r)) = policy (this s).

(** The policy is one under which nothing is persisted. *)
Definition not_persisting (p : jsval) : Prop :=
  p <> JStr PolicyPersist /\ p <> JStr PolicyPersistManual.

(** The direct call of the pass-through setter. *)
Definition is_setter (op : operation) : bool :=
  match op with
  | SetPersistedReaderSerialNumber _ => true
  | _ => false
  end.

(** The handler of discovery batches, among the operations. *)
Definition is_discovery (op : operation) : bool :=
  match op with
  | OnReadersDiscovered _ => true
  | _ => false
  end.

(** What is fixed at construction. *)
Definition same_configuration (s s' : state) : Prop :=
  policy (this s') = policy (this s) /\
  deviceType (this s') = deviceType (this s) /\
  discoveryMode (this s') = discoveryMode (this s) /\
  listeners (this s') = listeners (this s).

(** The ways one operation can change the store: not at all, by removing
    the item under [STCS.StorageKey], or by setting it to a non-empty
    string. *)
Definition store_step (st st' : gmap string string) : Prop :=
  st' = st \/
  st' = delete StorageKey st \/
  exists id, id <> EmptyString /\ st' = <[StorageKey := id]> st.

(** What a falsy or truthy identifier reads back as once persisted. *)
Definition read_back (v : jsval) : jsval := if truthy v then v else JNull.

(** The store call [setPersistedReaderSerialNumber(v)] makes. *)
Definition persist_call (v : jsval) : effect :=
  Storage (if truthy v
           then SetItem StorageKey (to_string v)
           else RemoveItem StorageKey).

Section Callbacks.

Variable StripeTerminal : Adapter.
Variable AsyncStorage : Backend.

(** The calls [connect] makes once [getReader] found nothing to keep:
    each one awaited, so a rejection ends the sequence. *)
Definition rediscover (s : state) : run unit :=
  (await AbortDiscoverReaders (abortDiscoverReaders StripeTerminal) ;;
   await DisconnectReader (disconnectReader StripeTerminal) ;;
   await (DiscoverReaders (deviceType (this s)) (discoveryMode (this s)))
         (discoverReaders StripeTerminal (deviceType (this s))
                          (discoveryMode (this s)))) s.

(** The [then] callback of lines 93-102. *)
Definition connected (r : Reader) : M unit :=
  set_desiredReader (serialNumber r) ;;
  self <- get_this ;;
  when (strict_eq (policy self) (JStr PolicyPersist) ||
        strict_eq (policy self) (JStr PolicyPersistManual))
       (detached (setPersistedReaderSerialNumber AsyncStorage
                    (desiredReader self))).

(** The [catch] callback of lines 103-109. *)
Definition failed (e : error) : M unit :=
  emit EventConnectionError (PError e) ;;
  self <- get_this ;;
  when (negb (strict_eq (policy self) (JStr PolicyManual)))
       (detached (connect StripeTerminal JUndefined)).

End Callbacks.

(** ** Scenarios *)

Definition readerA : Reader := {| serialNumber := JStr "A" |}.
Definition readerB : Reader := {| serialNumber := JStr "B" |}.
Definition readerC : Reader := {| serialNumber := JStr "C" |}.

(** An adapter with nothing connected, every call resolving, and
    [connectReader] resolving with the reader asked for. *)
Definition idle_adapter : Adapter :=
  {| DeviceTypeChipper2X := JStr "chipper2X";
     DiscoveryMethodBluetoothProximity := JStr "bluetoothProximity";
     getConnectedReader := Resolved None;
     connectReader := fun sn => Resolved {| serialNumber := sn |};
     abortDiscoverReaders := Resolved tt;
     disconnectReader := Resolved tt;
     discoverReaders := fun _ _ => Resolved tt |}.

(** The same with reader A connected. *)
Definition adapter_connected_to_A : Adapter :=
  {| DeviceTypeChipper2X := JStr "chipper2X";
     DiscoveryMethodBluetoothProximity := JStr "bluetoothProximity";
     getConnectedReader := Resolved (Some readerA);
     connectReader := fun sn => Resolved {| serialNumber := sn |};
     abortDiscoverReaders := Resolved tt;
     disconnectReader := Resolved tt;
     discoverReaders := fun _ _ => Resolved tt |}.

(** The same as [idle_adapter] with every [connectReader] rejected. *)
Definition refusing_adapter : Adapter :=
  {| DeviceTypeChipper2X := JStr "chipper2X";
     DiscoveryMethodBluetoothProximity := JStr "bluetoothProximity";
     getConnectedReader := Resolved None;
     connectReader := fun _ => Rejected (Error "could not connect");
     abortDiscoverReaders := Resolved tt;
     disconnectReader := Resolved tt;
     discoverReaders := fun _ _ => Resolved tt |}.

Definition working_storage : Backend :=
  {| getItem_fails := None; setItem_fails := None; removeItem_fails := None |}.

(** An adapter answering as scripted: the connected reader it reports,
    how [connectReader], [abortDiscoverReaders] and [disconnectReader]
    settle; discoveries start. *)
Definition scripted_adapter (query : settled (option Reader))
    (connecting : jsval -> settled Reader) (aborting disconnecting : settled unit)
    : Adapter :=
  {| DeviceTypeChipper2X := JStr "chipper2X";
     DiscoveryMethodBluetoothProximity := JStr "bluetoothProximity";
     getConnectedReader := query;
     connectReader := connecting;
     abortDiscoverReaders := aborting;
     disconnectReader := disconnecting;
     discoverReaders := fun _ _ => Resolved tt |}.

Definition busy : error := Error "reader is busy".

(** A store every call of which fails. *)
Definition failing_storage : Backend :=
  {| getItem_fails := Some (Error "storage unavailable");
     setItem_fails := Some (Error "storage unavailable");
     removeItem_fails := Some (Error "storage unavailable") |}.

(** The options [{ policy: p }]. *)
Definition options_with (p : string) : Options.t :=
  {| Options.policy := JStr p;
     Options.deviceType := JUndefined;
     Options.discoveryMode := JUndefined |}.

(** A service with the given policy and desired reader, over a store. *)
Definition service (p : string) (desired : jsval) (store : gmap string string)
    : state :=
  {| this := {| policy := JStr p;
                deviceType := JStr "chipper2X";
                discoveryMode := JStr "bluetoothProximity";
                desiredReader := desired;
                listeners := [ReadersDiscoveredSubscription;
                              DidDisconnectUnexpectedlySubscription] |};
     storage := store |}.

(** * Properties *)

Ltac js_prim :=
  unfold getItem, setItem, removeItem,
    then_catch, detached, forget, promise, await, emit, perform, when,
    with_desiredReader, set_desiredReader, get_this, bind, ret, throw in *.

Ltac js_unfold :=
  unfold onReadersDiscovered, onReadersDiscovered_without_unset_disjunct,
    connect, getReader, discover, disconnect, start, stop,
    onUnexpectedDisconnect, getPersistedReaderSerialNumber,
    setPersistedReaderSerialNumber in *;
  js_prim.

(** Comparisons of two string constants are evaluated. *)
Ltac js_constants :=
  repeat match goal with
  | |- context [strict_eq (JStr ?a) (JStr ?b)] =>
      let v := eval vm_compute in (strict_eq (JStr a) (JStr b)) in
      match v with
      | true => idtac
      | false => idtac
      end;
      change (strict_eq (JStr a) (JStr b)) with v
  end.

(** ** Values *)

Lemma strict_eq_true (a b : jsval) : strict_eq a b = true <-> a = b.
Proof. unfold strict_eq. apply bool_decide_eq_true. Qed.

Lemma strict_eq_false (a b : jsval) : strict_eq a b = false <-> a <> b.
Proof. unfold strict_eq. apply bool_decide_eq_false. Qed.

Lemma strict_eq_refl (a : jsval) : strict_eq a a = true.
Proof. by apply strict_eq_true. Qed.

Lemma truthy_is_string (v : jsval) :
  truthy v = true <-> exists id, v = JStr id /\ id <> EmptyString.
Proof.
  split.
  - destruct v as [| |id]; simpl; try discriminate.
    intros H. exists id. split; [reflexivity|].
    intros ->. discriminate.
  - intros (id & -> & Hid). simpl.
    destruct (String.eqb_spec id EmptyString); [contradiction|reflexivity].
Qed.

Lemma or_else_truthy (a b : jsval) : truthy a = true -> or_else a b = a.
Proof. unfold or_else. by intros ->. Qed.

Lemma or_else_falsy (a b : jsval) : truthy a = false -> or_else a b = b.
Proof. unfold or_else. by intros ->. Qed.

(** ** Effect lists *)

Lemma connect_calls_app (es1 es2 : list effect) :
  connect_calls (es1 ++ es2) = connect_calls es1 ++ connect_calls es2.
Proof.
  induction es1 as [|e es1 IH]; [reflexivity|].
  destruct e as [ev p|c|c|l]; simpl; try exact IH.
  destruct c; simpl; try exact IH.
  by rewrite IH.
Qed.

Lemma connect_calls_In (es : list effect) (sn : jsval) :
  In (Terminal (ConnectReader sn)) es <-> In sn (connect_calls es).
Proof.
  induction es as [|e es IH]; [reflexivity|].
  destruct e as [ev p|c|c|l]; simpl;
    try (rewrite <- IH; split; [intros [H|H]; [discriminate|exact H] | by right]).
  destruct c; simpl;
    try (rewrite <- IH; split; [intros [H|H]; [discriminate|exact H] | by right]).
  rewrite <- IH. split; (intros [H|H]; [left; congruence | by right]).
Qed.

Lemma store_writes_app (es1 es2 : list effect) :
  store_writes (es1 ++ es2) = store_writes es1 ++ store_writes es2.
Proof. unfold store_writes. apply List.filter_app. Qed.

Lemma store_writes_terminal (c : terminal_call) (es : list effect) :
  store_writes (Terminal c :: es) = store_writes es.
Proof. reflexivity. Qed.

(** ** The state *)

Lemma with_desiredReader_same (s : state) :
  with_desiredReader (desiredReader (this s)) s = s.
Proof. by destruct s as [[p dt dm d ls] st]. Qed.

Lemma desired_after_connect_truthy (serialNumber previous : jsval) :
  truthy (desired_after_connect serialNumber previous) = true.
Proof.
  unfold desired_after_connect.
  destruct (truthy serialNumber) eqn:H1; [exact H1|].
  destruct (truthy previous) eqn:H2; [exact H2|reflexivity].
Qed.

Lemma reportsb_true (reported : option Reader) (id : jsval) :
  reportsb reported id = true <-> reports reported id.
Proof.
  unfold reports. destruct reported as [r|]; simpl.
  - rewrite strict_eq_true. split.
    + intros H. by exists r.
    + intros (r' & Hr & Hid). by simplify_eq.
  - split; [discriminate|]. by intros (r' & Hr & _).
Qed.

Lemma reportsb_false (reported : option Reader) (id : jsval) :
  reportsb reported id = false <-> ~ reports reported id.
Proof.
  rewrite <- reportsb_true. destruct (reportsb reported id); split; try done.
Qed.

(** ** connect *)

Section ConnectFacts.

Variable StripeTerminal : Adapter.

(** [connect] in closed form. *)
Lemma connect_unfold (serialNumber : jsval) (s : state) :
  let desired := desired_after_connect serialNumber (desiredReader (this s)) in
  let s1 := with_desiredReader desired s in
  let start :=
    [connecting_to (to_string (or_else serialNumber (JStr "any")));
     Terminal GetConnectedReader] in
  connect StripeTerminal serialNumber s =
    match getConnectedReader StripeTerminal with
    | Rejected e => Run (Rejected e) s1 start
    | Resolved reported =>
        if reportsb reported desired
        then Run (Resolved tt) s1 start
        else Run (result (rediscover StripeTerminal s1)) s1
               (start ++ effects (rediscover StripeTerminal s1))
    end.
Proof.
  intros desired s1 start. subst desired s1 start.
  unfold desired_after_connect, rediscover, connecting_to, reportsb.
  destruct s as [[p dt dm d ls] st].
  js_unfold. simpl.
  destruct (truthy serialNumber) eqn:Hsn; simpl; rewrite ?Hsn; simpl;
    [|destruct (truthy d) eqn:Hd; simpl];
    (destruct (getConnectedReader StripeTerminal) as [[c|]|e]; simpl;
     [destruct (strict_eq _ _)| |reflexivity]);
    simpl; try reflexivity;
    destruct (abortDiscoverReaders StripeTerminal); simpl; try reflexivity;
    destruct (disconnectReader StripeTerminal); reflexivity.
Qed.

End ConnectFacts.

Section ConnectSequence.

Variable StripeTerminal : Adapter.

Lemma rediscover_resolving (s : state) :
  abortDiscoverReaders StripeTerminal = Resolved tt ->
  disconnectReader StripeTerminal = Resolved tt ->
  rediscover StripeTerminal s =
    Run (discoverReaders StripeTerminal (deviceType (this s))
                         (discoveryMode (this s)))
        s
        [Terminal AbortDiscoverReaders; Terminal DisconnectReader;
         Terminal (DiscoverReaders (deviceType (this s))
                                   (discoveryMode (this s)))].
Proof.
  intros Ha Hd. unfold rediscover. js_unfold. rewrite Ha. simpl.
  rewrite Hd. reflexivity.
Qed.

(** A rejected call is the last one made, and [connect] rejects with its
    reason. *)
Lemma rediscover_abort_rejected (s : state) (e : error) :
  abortDiscoverReaders StripeTerminal = Rejected e ->
  rediscover StripeTerminal s =
    Run (Rejected e) s [Terminal AbortDiscoverReaders].
Proof. intros Ha. unfold rediscover. js_unfold. by rewrite Ha. Qed.

Lemma rediscover_disconnect_rejected (s : state) (e : error) :
  abortDiscoverReaders StripeTerminal = Resolved tt ->
  disconnectReader StripeTerminal = Rejected e ->
  rediscover StripeTerminal s =
    Run (Rejected e) s
        [Terminal AbortDiscoverReaders; Terminal DisconnectReader].
Proof.
  intros Ha Hd. unfold rediscover. js_unfold. rewrite Ha. simpl.
  by rewrite Hd.
Qed.

Lemma rediscover_quiet (s : state) :
  connect_calls (effects (rediscover StripeTerminal s)) = [] /\
  store_writes (effects (rediscover StripeTerminal s)) = [] /\
  final (rediscover StripeTerminal s) = s.
Proof.
  unfold rediscover. js_unfold.
  destruct (abortDiscoverReaders StripeTerminal); simpl; [|done].
  destruct (disconnectReader StripeTerminal); simpl; done.
Qed.

(** [connect] never calls [connectReader], never writes the store, and
    leaves [this] as it was but for the desired reader. *)
Lemma connect_quiet (serialNumber : jsval) (s : state) :
  let r := connect StripeTerminal serialNumber s in
  connect_calls (effects r) = [] /\
  store_writes (effects r) = [] /\
  final r = with_desiredReader
              (desired_after_connect serialNumber (desiredReader (this s))) s.
Proof.
  intros r. subst r. rewrite connect_unfold.
  destruct (getConnectedReader StripeTerminal) as [reported|e]; [|done].
  destruct (reportsb reported _); [done|].
  destruct (rediscover_quiet
              (with_desiredReader
                 (desired_after_connect serialNumber (desiredReader (this s))) s))
    as (Hc & Hw & _).
  cbn [effects final]. rewrite connect_calls_app, store_writes_app, Hc, Hw.
  done.
Qed.

(** Every [connect] starts with its log line and the query for the
    connected reader. *)
Lemma connect_starts (serialNumber : jsval) (s : state) :
  exists rest,
    effects (connect StripeTerminal serialNumber s) =
      connecting_to (to_string (or_else serialNumber (JStr "any"))) ::
      Terminal GetConnectedReader :: rest.
Proof.
  rewrite connect_unfold.
  destruct (getConnectedReader StripeTerminal) as [reported|e];
    [destruct (reportsb reported _)|]; cbn [effects app]; eauto.
Qed.

(** C3.  [connect(serialNumber)], the adapter reporting [reported] as the
    connected reader.  DesiredReader is the value [connect] has settled
    by then: the argument if one is given, else the previous value, else
    the sentinel for any reader.  If the reported reader carries that
    identifier, [connect] resolves having made no adapter call but the
    query itself: no abort, no disconnect, no discovery.  Otherwise, the
    awaited abort and disconnect resolving, the adapter calls are
    abortDiscoverReaders, disconnectReader and discoverReaders with the
    configured device type and discovery mode, in that order, and
    [connect] settles as the discovery call does. *)
Theorem connect_short_circuits_or_rediscovers
    (serialNumber : jsval) (s : state) (reported : option Reader) :
  getConnectedReader StripeTerminal = Resolved reported ->
  let r := connect StripeTerminal serialNumber s in
  let desired := desiredReader (this (final r)) in
  desired = desired_after_connect serialNumber (desiredReader (this s)) /\
  (reports reported desired ->
     result r = Resolved tt /\
     terminal_calls (effects r) = [GetConnectedReader]) /\
  (~ reports reported desired ->
     abortDiscoverReaders StripeTerminal = Resolved tt ->
     disconnectReader StripeTerminal = Resolved tt ->
     terminal_calls (effects r) =
       [GetConnectedReader; AbortDiscoverReaders; DisconnectReader;
        DiscoverReaders (deviceType (this s)) (discoveryMode (this s))] /\
     result r =
       discoverReaders StripeTerminal (deviceType (this s))
                       (discoveryMode (this s))).
Proof.
  intros Hq r desired.
  assert (Hdesired :
    desired = desired_after_connect serialNumber (desiredReader (this s))).
  { subst desired r. destruct (connect_quiet serialNumber s) as (_ & _ & ->).
    reflexivity. }
  split; [exact Hdesired|]. rewrite Hdesired. clear Hdesired desired.
  subst r. rewrite connect_unfold, Hq. split.
  - intros H. apply reportsb_true in H. rewrite H. done.
  - intros H Ha Hd. apply reportsb_false in H. rewrite H.
    rewrite rediscover_resolving by assumption.
    cbn [effects result app terminal_calls connecting_to].
    split; reflexivity.
Qed.

(** C6.  The handler of the adapter's unexpected-disconnect notification
    is a call of [connect()] and nothing else, whatever the state: no
    test of the policy stands before it, so it runs under Manual as
    under every other policy.  Its effects are those of [connect()],
    which start with the log line naming any reader and the query for
    the connected reader. *)
Theorem unexpected_disconnect_reconnects (s : state) :
  let r := onUnexpectedDisconnect StripeTerminal s in
  let c := connect StripeTerminal JUndefined s in
  result r = Resolved tt /\
  effects r = effects c /\
  final r = final c /\
  exists rest,
    effects r = connecting_to "any" :: Terminal GetConnectedReader :: rest.
Proof.
  intros r c. subst r c. unfold onUnexpectedDisconnect, detached.
  cbn [result effects final]. repeat split.
  destruct (connect_starts JUndefined s) as (rest & ->). by exists rest.
Qed.

End ConnectSequence.

Lemma connect_short_circuits_or_rediscovers_witness :
  (let r := connect adapter_connected_to_A JUndefined
              (service PolicyAuto (JStr "A") ∅) in
   result r = Resolved tt /\
   terminal_calls (effects r) = [GetConnectedReader]) /\
  (let r := connect idle_adapter (JStr "B")
              (service PolicyAuto (JStr "A") ∅) in
   terminal_calls (effects r) =
     [GetConnectedReader; AbortDiscoverReaders; DisconnectReader;
      DiscoverReaders (JStr "chipper2X") (JStr "bluetoothProximity")] /\
   result r = Resolved tt).
Proof.
  split.
  - destruct (connect_short_circuits_or_rediscovers adapter_connected_to_A
                JUndefined (service PolicyAuto (JStr "A") ∅) (Some readerA)
                eq_refl) as (_ & H & _).
    apply H. exists readerA. split; reflexivity.
  - destruct (connect_short_circuits_or_rediscovers adapter_connected_to_A
                (JStr "B") (service PolicyAuto (JStr "A") ∅) (Some readerA)
                eq_refl) as (_ & _ & H).
    apply H; [|reflexivity|reflexivity].
    intros (r & Hr & Hid). injection Hr as <-. discriminate Hid.
Defined.

(** ** The persisted identifier *)

(** The read finds an identifier exactly when the store holds a non-empty
    string under the key. *)
Lemma persisted_truthy (store : gmap string string) :
  truthy (persisted store) = true <->
  exists id, store !! StorageKey = Some id /\ id <> EmptyString.
Proof.
  rewrite truthy_is_string. unfold persisted.
  destruct (store !! StorageKey) as [v|]; split.
  - intros (id & Hid & Hne). exists id. by simplify_eq.
  - intros (id & Hid & Hne). exists id. by simplify_eq.
  - intros (id & Hid & _). discriminate Hid.
  - intros (id & Hid & _). discriminate Hid.
Qed.

Section Persistence.

Variable AsyncStorage : Backend.

Lemma getPersistedReaderSerialNumber_run (s : state) :
  getItem_fails AsyncStorage = None ->
  getPersistedReaderSerialNumber AsyncStorage s =
    Run (Resolved (persisted (storage s))) s [Storage (GetItem StorageKey)].
Proof. intros Hg. js_unfold. unfold persisted. rewrite Hg. reflexivity. Qed.

Lemma setPersistedReaderSerialNumber_identifier (id : string) (s : state) :
  id <> EmptyString ->
  setItem_fails AsyncStorage = None ->
  setPersistedReaderSerialNumber AsyncStorage (JStr id) s =
    Run (Resolved tt)
        {| this := this s; storage := <[StorageKey := id]> (storage s) |}
        [Storage (SetItem StorageKey id);
         Emit EventReaderPersisted (PValue (JStr id))].
Proof.
  intros Hid Hs. js_unfold. simpl.
  destruct (String.eqb_spec id EmptyString); [contradiction|]. simpl.
  rewrite Hs. reflexivity.
Qed.

Lemma setPersistedReaderSerialNumber_falsy (v : jsval) (s : state) :
  truthy v = false ->
  removeItem_fails AsyncStorage = None ->
  setPersistedReaderSerialNumber AsyncStorage v s =
    Run (Resolved tt)
        {| this := this s; storage := delete StorageKey (storage s) |}
        [Storage (RemoveItem StorageKey);
         Emit EventReaderPersisted (PValue v)].
Proof. intros Hv Hr. js_unfold. rewrite Hv. simpl. rewrite Hr. reflexivity. Qed.

(** A failing store call is the only effect: no event is emitted and the
    method rejects with the store's reason. *)
Lemma setPersistedReaderSerialNumber_remove_rejected
    (v : jsval) (s : state) (e : error) :
  truthy v = false ->
  removeItem_fails AsyncStorage = Some e ->
  setPersistedReaderSerialNumber AsyncStorage v s =
    Run (Rejected e) s [Storage (RemoveItem StorageKey)].
Proof. intros Hv Hr. js_unfold. rewrite Hv. simpl. by rewrite Hr. Qed.

Lemma setPersistedReaderSerialNumber_set_rejected
    (v : jsval) (s : state) (e : error) :
  truthy v = true ->
  setItem_fails AsyncStorage = Some e ->
  setPersistedReaderSerialNumber AsyncStorage v s =
    Run (Rejected e) s [Storage (SetItem StorageKey (to_string v))].
Proof. intros Hv Hs. js_unfold. rewrite Hv. simpl. by rewrite Hs. Qed.

(** C9.  Over a store whose calls resolve:
    [setPersistedReaderSerialNumber(id)] with a non-empty identifier
    writes it, emits readerPersisted with [id], and
    [getPersistedReaderSerialNumber()] then resolves with [id]; with
    [null], [undefined] or the empty string it removes the stored value,
    emits readerPersisted with the argument, and the read then resolves
    with [null]. *)
Theorem persisted_serial_round_trip (s : state) :
  setItem_fails AsyncStorage = None ->
  removeItem_fails AsyncStorage = None ->
  getItem_fails AsyncStorage = None ->
  (forall id : string, id <> EmptyString ->
     let w := setPersistedReaderSerialNumber AsyncStorage (JStr id) s in
     result w = Resolved tt /\
     effects w = [Storage (SetItem StorageKey id);
                  Emit EventReaderPersisted (PValue (JStr id))] /\
     storage (final w) !! StorageKey = Some id /\
     result (getPersistedReaderSerialNumber AsyncStorage (final w)) =
       Resolved (JStr id)) /\
  (forall v : jsval, v = JNull \/ v = JUndefined \/ v = JStr EmptyString ->
     let w := setPersistedReaderSerialNumber AsyncStorage v s in
     result w = Resolved tt /\
     effects w = [Storage (RemoveItem StorageKey);
                  Emit EventReaderPersisted (PValue v)] /\
     storage (final w) !! StorageKey = None /\
     result (getPersistedReaderSerialNumber AsyncStorage (final w)) =
       Resolved JNull).
Proof.
  intros Hs Hr Hg. split.
  - intros id Hid w. subst w.
    rewrite setPersistedReaderSerialNumber_identifier by assumption.
    rewrite getPersistedReaderSerialNumber_run by assumption.
    cbn [result effects final storage]. unfold persisted.
    rewrite lookup_insert_eq. done.
  - intros v Hv w. subst w.
    assert (truthy v = false) as Hfalsy by (by destruct Hv as [->|[->| ->]]).
    rewrite setPersistedReaderSerialNumber_falsy by assumption.
    rewrite getPersistedReaderSerialNumber_run by assumption.
    cbn [result effects final storage]. unfold persisted.
    rewrite lookup_delete_eq. done.
Qed.

End Persistence.

Lemma persisted_serial_round_trip_witness :
  (let w := setPersistedReaderSerialNumber working_storage (JStr "A")
              (service PolicyManual JNull ∅) in
   result w = Resolved tt /\
   effects w = [Storage (SetItem StorageKey "A");
                Emit EventReaderPersisted (PValue (JStr "A"))] /\
   storage (final w) !! StorageKey = Some "A" /\
   result (getPersistedReaderSerialNumber working_storage (final w)) =
     Resolved (JStr "A")) /\
  (let w := setPersistedReaderSerialNumber working_storage JNull
              (service PolicyManual JNull {[StorageKey := "A"]}) in
   result w = Resolved tt /\
   effects w = [Storage (RemoveItem StorageKey);
                Emit EventReaderPersisted (PValue JNull)] /\
   storage (final w) !! StorageKey = None /\
   result (getPersistedReaderSerialNumber working_storage (final w)) =
     Resolved JNull).
Proof.
  split.
  - apply (persisted_serial_round_trip working_storage
             (service PolicyManual JNull ∅) eq_refl eq_refl eq_refl).
    discriminate.
  - apply (persisted_serial_round_trip working_storage
             (service PolicyManual JNull {[StorageKey := "A"]})
             eq_refl eq_refl eq_refl).
    left. reflexivity.
Defined.

(** ** disconnect and start *)

Section Lifecycle.

Variable StripeTerminal : Adapter.
Variable AsyncStorage : Backend.

(** C5.  [disconnect()].  Under Persist and PersistManual, the removal
    from the store resolving: the stored identifier is removed,
    readerPersisted is emitted with [null], DesiredReader is reset to
    [null], and only then, from that state, disconnectReader is called;
    [disconnect] settles as that call does.  Under Auto and Manual the
    adapter's disconnectReader is the only effect, and the state, with
    DesiredReader and the store, is left as it was. *)
Theorem disconnect_by_policy (s : state) :
  let r := disconnect StripeTerminal AsyncStorage s in
  let call s' := await DisconnectReader (disconnectReader StripeTerminal) s' in
  ((policy (this s) = JStr PolicyPersist \/
    policy (this s) = JStr PolicyPersistManual) ->
   removeItem_fails AsyncStorage = None ->
     effects r =
       [Storage (RemoveItem StorageKey);
        Emit EventReaderPersisted (PValue JNull)] ++
       effects (call (forgotten s)) /\
     effects (call (forgotten s)) = [Terminal DisconnectReader] /\
     result r = result (call (forgotten s)) /\
     final r = forgotten s /\
     desiredReader (this (forgotten s)) = JNull /\
     storage (forgotten s) !! StorageKey = None) /\
  ((policy (this s) = JStr PolicyAuto \/
    policy (this s) = JStr PolicyManual) ->
     effects r = [Terminal DisconnectReader] /\
     result r = disconnectReader StripeTerminal /\
     final r = s).
Proof.
  intros r call. subst r call. unfold forgotten. split.
  - intros Hp Hr. unfold disconnect, bind, get_this.
    cbn [result final effects].
    destruct Hp as [Hp|Hp]; rewrite Hp; js_constants; cbn [orb];
      rewrite !(setPersistedReaderSerialNumber_falsy _ JNull s eq_refl Hr);
      js_prim; cbn; rewrite Hp, lookup_delete_eq; done.
  - intros Hp. unfold disconnect. js_prim. cbn [result final effects].
    destruct Hp as [Hp|Hp]; rewrite Hp; js_constants; cbn; done.
Qed.

(** Under a persisting policy a failing removal ends [disconnect]:
    DesiredReader keeps its value and the adapter is not called. *)
Lemma disconnect_removal_rejected (s : state) (e : error) :
  policy (this s) = JStr PolicyPersist \/
  policy (this s) = JStr PolicyPersistManual ->
  removeItem_fails AsyncStorage = Some e ->
  disconnect StripeTerminal AsyncStorage s =
    Run (Rejected e) s [Storage (RemoveItem StorageKey)].
Proof.
  intros Hp Hr. unfold disconnect, bind, get_this.
  cbn [result final effects].
  destruct Hp as [Hp|Hp]; rewrite Hp; js_constants; cbn [orb];
    rewrite !(setPersistedReaderSerialNumber_remove_rejected _ JNull s e eq_refl Hr);
    reflexivity.
Qed.

(** [start] under the two persisting policies, the read resolving. *)
Lemma start_persisting (s : state) :
  policy (this s) = JStr PolicyPersist \/
  policy (this s) = JStr PolicyPersistManual ->
  getItem_fails AsyncStorage = None ->
  start StripeTerminal AsyncStorage s =
    let found := persisted (storage s) in
    let c := connect StripeTerminal found s in
    if strict_eq (policy (this s)) (JStr PolicyPersist) || truthy found
    then Run (Resolved tt) (final c) (Storage (GetItem StorageKey) :: effects c)
    else Run (Resolved tt) s [Storage (GetItem StorageKey)].
Proof.
  intros Hp Hg. unfold start, bind, get_this.
  cbn [result final effects].
  destruct Hp as [Hp|Hp]; rewrite Hp; js_constants; cbn [orb];
    rewrite !getPersistedReaderSerialNumber_run by assumption;
    cbn -[connect]; rewrite ?Hp; js_constants; cbn [orb];
    try reflexivity.
  destruct (truthy (persisted (storage s))); reflexivity.
Qed.

(** Under a persisting policy a failing read ends [start]: [connect] is
    not called. *)
Lemma start_read_rejected (s : state) (e : error) :
  policy (this s) = JStr PolicyPersist \/
  policy (this s) = JStr PolicyPersistManual ->
  getItem_fails AsyncStorage = Some e ->
  start StripeTerminal AsyncStorage s =
    Run (Rejected e) s [Storage (GetItem StorageKey)].
Proof.
  intros Hp Hg. unfold start, bind, get_this.
  cbn [result final effects].
  destruct Hp as [Hp|Hp]; rewrite Hp; js_constants; cbn [orb];
    unfold getPersistedReaderSerialNumber, bind, getItem;
    rewrite Hg; reflexivity.
Qed.

(** C2.  [start()], policy by policy.  Auto: [connect()] with no target.
    Persist, the read of the store resolving: the persisted identifier
    is read and [connect] is called with what was read, found or not;
    when nothing was found the connect names any reader as its target,
    and DesiredReader, unset as construction leaves it, becomes the
    sentinel.  PersistManual, the read resolving: [connect] is called
    with the identifier read when there is one, and otherwise nothing
    happens beyond the read.  Manual: no effect at all. *)
Theorem start_by_policy (s : state) :
  let r := start StripeTerminal AsyncStorage s in
  let found := persisted (storage s) in
  let read := Storage (GetItem StorageKey) in
  (policy (this s) = JStr PolicyAuto ->
     result r = Resolved tt /\
     effects r = effects (connect StripeTerminal JUndefined s) /\
     final r = final (connect StripeTerminal JUndefined s)) /\
  (policy (this s) = JStr PolicyPersist ->
   getItem_fails AsyncStorage = None ->
     result r = Resolved tt /\
     effects r = read :: effects (connect StripeTerminal found s) /\
     final r = final (connect StripeTerminal found s) /\
     (truthy found = false ->
        (exists rest,
           effects r =
             read :: connecting_to "any" :: Terminal GetConnectedReader :: rest) /\
        (truthy (desiredReader (this s)) = false ->
           desiredReader (this (final r)) = JStr DesiredReaderAny))) /\
  (policy (this s) = JStr PolicyPersistManual ->
   getItem_fails AsyncStorage = None ->
     result r = Resolved tt /\
     (truthy found = true ->
        effects r = read :: effects (connect StripeTerminal found s) /\
        final r = final (connect StripeTerminal found s) /\
        desiredReader (this (final r)) = found) /\
     (truthy found = false ->
        effects r = [read] /\ final r = s)) /\
  (policy (this s) = JStr PolicyManual ->
     result r = Resolved tt /\ effects r = [] /\ final r = s).
Proof.
  intros r found read. subst r found read.
  split; [|split; [|split]].
  - intros Hp. unfold start, bind, get_this. cbn [result final effects].
    rewrite Hp. js_constants. cbn -[connect]. done.
  - intros Hp Hg. rewrite (start_persisting s) by auto.
    rewrite Hp. js_constants. cbn [orb result final effects].
    split; [done|split; [done|split; [done|intros Hnone; split]]].
    + destruct (connect_starts StripeTerminal (persisted (storage s)) s)
        as (rest & ->).
      rewrite (or_else_falsy _ _ Hnone). by exists rest.
    + intros Hunset.
      destruct (connect_quiet StripeTerminal (persisted (storage s)) s)
        as (_ & _ & ->).
      unfold desired_after_connect. rewrite Hnone, Hunset. reflexivity.
  - intros Hp Hg. rewrite (start_persisting s) by auto.
    rewrite Hp. js_constants. cbn [orb].
    split; [by destruct (truthy (persisted (storage s)))|]. split.
    + intros Hsome. rewrite Hsome. cbn [result final effects].
      split; [done|split; [done|]].
      destruct (connect_quiet StripeTerminal (persisted (storage s)) s)
        as (_ & _ & ->).
      unfold desired_after_connect. rewrite Hsome. reflexivity.
    + intros ->. done.
  - intros Hp. unfold start, bind, get_this. cbn [result final effects].
    rewrite Hp. js_constants. cbn. done.
Qed.

End Lifecycle.

Lemma disconnect_by_policy_witness :
  (let s := service PolicyPersist (JStr "A") {[StorageKey := "A"]} in
   let r := disconnect idle_adapter working_storage s in
   effects r =
     [Storage (RemoveItem StorageKey);
      Emit EventReaderPersisted (PValue JNull)] ++
     effects (await DisconnectReader (disconnectReader idle_adapter)
                    (forgotten s)) /\
   effects (await DisconnectReader (disconnectReader idle_adapter)
                  (forgotten s)) = [Terminal DisconnectReader] /\
   result r =
     result (await DisconnectReader (disconnectReader idle_adapter)
                   (forgotten s)) /\
   final r = forgotten s /\
   desiredReader (this (forgotten s)) = JNull /\
   storage (forgotten s) !! StorageKey = None) /\
  (let s := service PolicyAuto (JStr "A") {[StorageKey := "A"]} in
   let r := disconnect idle_adapter working_storage s in
   effects r = [Terminal DisconnectReader] /\
   result r = disconnectReader idle_adapter /\
   final r = s).
Proof.
  split.
  - apply (proj1 (disconnect_by_policy idle_adapter working_storage
                    (service PolicyPersist (JStr "A") {[StorageKey := "A"]}))).
    + left. reflexivity.
    + reflexivity.
  - apply (proj2 (disconnect_by_policy idle_adapter working_storage
                    (service PolicyAuto (JStr "A") {[StorageKey := "A"]}))).
    left. reflexivity.
Defined.

Lemma start_by_policy_witness :
  (let s := service PolicyAuto JNull ∅ in
   let r := start idle_adapter working_storage s in
   result r = Resolved tt /\
   effects r = effects (connect idle_adapter JUndefined s) /\
   final r = final (connect idle_adapter JUndefined s)) /\
  (let s := service PolicyPersist JNull ∅ in
   let r := start idle_adapter working_storage s in
   (exists rest,
      effects r =
        Storage (GetItem StorageKey) :: connecting_to "any" ::
        Terminal GetConnectedReader :: rest) /\
   desiredReader (this (final r)) = JStr DesiredReaderAny) /\
  (let s := service PolicyPersistManual JNull {[StorageKey := "X"]} in
   let r := start idle_adapter working_storage s in
   effects r =
     Storage (GetItem StorageKey) ::
     effects (connect idle_adapter (persisted (storage s)) s) /\
   final r = final (connect idle_adapter (persisted (storage s)) s) /\
   desiredReader (this (final r)) = persisted (storage s)) /\
  (let s := service PolicyPersistManual JNull ∅ in
   let r := start idle_adapter working_storage s in
   effects r = [Storage (GetItem StorageKey)] /\ final r = s) /\
  (let s := service PolicyManual JNull ∅ in
   let r := start idle_adapter working_storage s in
   result r = Resolved tt /\ effects r = [] /\ final r = s).
Proof.
  split; [|split; [|split; [|split]]].
  - apply (start_by_policy idle_adapter working_storage
             (service PolicyAuto JNull ∅)).
    reflexivity.
  - destruct (start_by_policy idle_adapter working_storage
                (service PolicyPersist JNull ∅)) as (_ & H & _).
    destruct (H eq_refl eq_refl) as (_ & _ & _ & Hany).
    destruct (Hany eq_refl) as (Hlog & Hdesired).
    split; [exact Hlog | exact (Hdesired eq_refl)].
  - destruct (start_by_policy idle_adapter working_storage
                (service PolicyPersistManual JNull {[StorageKey := "X"]}))
      as (_ & _ & H & _).
    destruct (H eq_refl eq_refl) as (_ & Hfound & _).
    exact (Hfound eq_refl).
  - destruct (start_by_policy idle_adapter working_storage
                (service PolicyPersistManual JNull ∅)) as (_ & _ & H & _).
    destruct (H eq_refl eq_refl) as (_ & _ & Hnone).
    exact (Hnone eq_refl).
  - apply (start_by_policy idle_adapter working_storage
             (service PolicyManual JNull ∅)).
    reflexivity.
Defined.

(** ** Construction *)

Section Construction.

Variable StripeTerminal : Adapter.

Lemma indexOf_Policies (v : jsval) :
  indexOf Policies v = (-1)%Z <-> forall p, In p Policies -> v <> JStr p.
Proof.
  unfold indexOf, Policies. cbn [indexOf_from]. split.
  - intros H p Hp Hv. subst v.
    cbn [In] in Hp. destruct Hp as [<-|[<-|[<-|[<-|[]]]]];
      vm_compute in H; discriminate H.
  - intros H.
    destruct (strict_eq (JStr PolicyAuto) v) eqn:H1;
      [apply strict_eq_true in H1; exfalso;
       apply (H PolicyAuto); [cbn; tauto | congruence]|].
    destruct (strict_eq (JStr PolicyPersist) v) eqn:H2;
      [apply strict_eq_true in H2; exfalso;
       apply (H PolicyPersist); [cbn; tauto | congruence]|].
    destruct (strict_eq (JStr PolicyManual) v) eqn:H3;
      [apply strict_eq_true in H3; exfalso;
       apply (H PolicyManual); [cbn; tauto | congruence]|].
    destruct (strict_eq (JStr PolicyPersistManual) v) eqn:H4;
      [apply strict_eq_true in H4; exfalso;
       apply (H PolicyPersistManual); [cbn; tauto | congruence]|].
    reflexivity.
Qed.

(** C8.  Construction with a policy that is none of the four throws the
    configuration error, and has had no effect by then: no adapter call
    was made, neither listener was subscribed, and [this.listeners] was
    never assigned. *)
Theorem constructor_rejects_unknown_policy
    (options : Options.t) (store : gmap string string) :
  (forall p, In p Policies -> Options.policy options <> JStr p) ->
  let r := createConnectionService StripeTerminal options store in
  result r = Rejected (invalid_policy (Options.policy options)) /\
  effects r = [] /\
  listeners (this (final r)) = [].
Proof.
  intros H r. subst r. apply indexOf_Policies in H.
  unfold createConnectionService, constructor. rewrite H.
  cbn. done.
Qed.

(** With one of the four policies the constructor subscribes the two
    handlers, in this order, and leaves DesiredReader unset. *)
Lemma constructor_accepts_policy
    (options : Options.t) (store : gmap string string) (p : string) :
  In p Policies ->
  Options.policy options = JStr p ->
  let r := createConnectionService StripeTerminal options store in
  result r = Resolved tt /\
  effects r = [Terminal AddReadersDiscoveredListener;
               Terminal AddDidDisconnectUnexpectedlyFromReaderListener] /\
  policy (this (final r)) = JStr p /\
  desiredReader (this (final r)) = JNull /\
  storage (final r) = store.
Proof.
  intros Hp Ho r. subst r.
  unfold createConnectionService, constructor. rewrite Ho.
  cbn [In Policies] in Hp.
  destruct Hp as [<-|[<-|[<-|[<-|[]]]]]; cbn; done.
Qed.

End Construction.

Lemma constructor_rejects_unknown_policy_witness :
  let r := createConnectionService idle_adapter
             {| Options.policy := JStr "automatic";
                Options.deviceType := JUndefined;
                Options.discoveryMode := JUndefined |} ∅ in
  result r = Rejected (invalid_policy (JStr "automatic")) /\
  effects r = [] /\
  listeners (this (final r)) = [].
Proof.
  apply (constructor_rejects_unknown_policy idle_adapter
           {| Options.policy := JStr "automatic";
              Options.deviceType := JUndefined;
              Options.discoveryMode := JUndefined |} ∅).
  intros p Hp. cbn in Hp.
  destruct Hp as [<-|[<-|[<-|[<-|[]]]]]; discriminate.
Defined.

(** ** The discovery handler *)

Section Discovery.

Variable StripeTerminal : Adapter.
Variable AsyncStorage : Backend.

(** C10.  The handler and its variant without the disjunct
    [this.policy === STCS.PolicyPersist && !this.desiredReader] are the
    same function: on every batch and from every state they settle
    alike, leave the same state and have the same effects.  The handler
    has returned before the condition when DesiredReader is falsy. *)
Theorem unset_disjunct_is_dead (readers : list Reader) (s : state) :
  onReadersDiscovered StripeTerminal AsyncStorage readers s =
  onReadersDiscovered_without_unset_disjunct StripeTerminal AsyncStorage
    readers s.
Proof.
  unfold onReadersDiscovered, onReadersDiscovered_without_unset_disjunct.
  unfold bind, emit, perform, get_this. cbn [result final effects].
  destruct (length readers =? 0)%nat; [reflexivity|].
  cbn [result final effects].
  destruct (truthy (desiredReader (this s))) eqn:Hset; cbn [negb];
    [|reflexivity].
  rewrite andb_false_r, orb_false_r. reflexivity.
Qed.

Lemma connected_resolves (r : Reader) (s : state) :
  result (connected AsyncStorage r s) = Resolved tt.
Proof.
  unfold connected. js_prim. cbn.
  destruct (strict_eq (policy (this s)) (JStr PolicyPersist) ||
            strict_eq (policy (this s)) (JStr PolicyPersistManual));
    reflexivity.
Qed.

(** The handler in closed form, on a batch it acts on. *)
Lemma onReadersDiscovered_unfold (readers : list Reader) (s : state) :
  readers <> [] ->
  truthy (desiredReader (this s)) = true ->
  onReadersDiscovered StripeTerminal AsyncStorage readers s =
    match target (this s) readers with
    | Some id =>
        let h := match connectReader StripeTerminal id with
                 | Resolved r => connected AsyncStorage r s
                 | Rejected e => failed StripeTerminal e s
                 end in
        Run (Resolved tt) (final h)
            (Emit EventReadersDiscovered (PReaders readers) ::
             Terminal (ConnectReader id) :: effects h)
    | None =>
        let c := connect StripeTerminal JUndefined s in
        Run (Resolved tt) (final c)
            (Emit EventReadersDiscovered (PReaders readers) ::
             Emit EventPersistedReaderNotFound (PReaders readers) ::
             effects c)
    end.
Proof.
  intros Hne Hset. destruct readers as [|r0 rest]; [done|].
  unfold onReadersDiscovered, target, connected, failed, then_catch,
    detached, promise, when, bind, emit, perform, get_this,
    set_desiredReader, ret.
  cbn [result final effects length Nat.eqb]. rewrite Hset. cbn [negb].
  destruct (find _ (r0 :: rest)) as [r|].
  - cbn [result final effects app].
    destruct (connectReader StripeTerminal (serialNumber r)) as [c|e];
      cbn [result final effects app this policy desiredReader]; [|reflexivity].
    destruct (strict_eq (policy (this s)) (JStr PolicyPersist) ||
              strict_eq (policy (this s)) (JStr PolicyPersistManual));
      reflexivity.
  - destruct (strict_eq (policy (this s)) (JStr PolicyAuto) ||
              strict_eq (policy (this s)) (JStr PolicyPersist) && false ||
              strict_eq (desiredReader (this s)) (JStr DesiredReaderAny));
      [|reflexivity].
    cbn [lookup list_lookup fmap option_fmap option_map
         result final effects app].
    destruct (connectReader StripeTerminal (serialNumber r0)) as [c|e];
      cbn [result final effects app this policy desiredReader]; [|reflexivity].
    destruct (strict_eq (policy (this s)) (JStr PolicyPersist) ||
              strict_eq (policy (this s)) (JStr PolicyPersistManual));
      reflexivity.
Qed.

End Discovery.

Section DiscoveryClaims.

Variable StripeTerminal : Adapter.
Variable AsyncStorage : Backend.

(** An empty batch, or no desired reader: the batch is re-emitted and
    nothing else happens. *)
Lemma onReadersDiscovered_idle (readers : list Reader) (s : state) :
  readers = [] \/ truthy (desiredReader (this s)) = false ->
  onReadersDiscovered StripeTerminal AsyncStorage readers s =
    Run (Resolved tt) s [Emit EventReadersDiscovered (PReaders readers)].
Proof.
  intros H. unfold onReadersDiscovered.
  unfold bind, emit, perform, get_this, ret.
  cbn [result final effects].
  destruct H as [-> | H]; [reflexivity|].
  destruct (length readers =? 0)%nat; [reflexivity|].
  cbn [result final effects]. rewrite H. reflexivity.
Qed.

(** The two callbacks. *)
Lemma connected_run (r : Reader) (s : state) :
  desiredReader (this (final (connected AsyncStorage r s))) = serialNumber r /\
  policy (this (final (connected AsyncStorage r s))) = policy (this s) /\
  connect_calls (effects (connected AsyncStorage r s)) = [] /\
  (strict_eq (policy (this s)) (JStr PolicyPersist) ||
   strict_eq (policy (this s)) (JStr PolicyPersistManual) = false ->
   effects (connected AsyncStorage r s) = [] /\
   storage (final (connected AsyncStorage r s)) = storage s).
Proof.
  unfold connected, setPersistedReaderSerialNumber. js_prim.
  cbn [result final effects this policy desiredReader].
  destruct (strict_eq (policy (this s)) (JStr PolicyPersist) ||
            strict_eq (policy (this s)) (JStr PolicyPersistManual));
    [|done].
  destruct (truthy (serialNumber r)); cbn [negb];
    [destruct (setItem_fails AsyncStorage)
    |destruct (removeItem_fails AsyncStorage)]; done.
Qed.

Lemma failed_run (e : error) (s : state) :
  failed StripeTerminal e s =
    if strict_eq (policy (this s)) (JStr PolicyManual)
    then Run (Resolved tt) s [Emit EventConnectionError (PError e)]
    else Run (Resolved tt) (final (connect StripeTerminal JUndefined s))
             (Emit EventConnectionError (PError e) ::
              effects (connect StripeTerminal JUndefined s)).
Proof.
  unfold failed, when, detached, bind, emit, perform, get_this, ret.
  cbn [result final effects].
  destruct (strict_eq (policy (this s)) (JStr PolicyManual)); reflexivity.
Qed.

Lemma failed_quiet (e : error) (s : state) :
  connect_calls (effects (failed StripeTerminal e s)) = [] /\
  store_writes (effects (failed StripeTerminal e s)) = [] /\
  storage (final (failed StripeTerminal e s)) = storage s.
Proof.
  rewrite failed_run.
  destruct (connect_quiet StripeTerminal JUndefined s) as (Hc & Hw & Hf).
  destruct (strict_eq (policy (this s)) (JStr PolicyManual));
    cbn [effects final connect_calls store_writes List.filter is_store_write];
    [done|].
  fold (store_writes (effects (connect StripeTerminal JUndefined s))).
  rewrite Hc, Hw, Hf. done.
Qed.

Lemma target_matching (self : STCS) (readers : list Reader) :
  matching self readers -> target self readers = Some (desiredReader self).
Proof.
  intros (x & Hx & Hid). unfold target.
  destruct (find _ readers) as [r|] eqn:Hfind.
  - apply find_some in Hfind as (_ & Hr).
    apply strict_eq_true in Hr. by rewrite Hr.
  - apply find_none with (x := x) in Hfind; [|exact Hx].
    apply strict_eq_false in Hfind. contradiction.
Qed.

Lemma find_not_matching (self : STCS) (readers : list Reader) :
  ~ matching self readers ->
  find (fun r => strict_eq (serialNumber r) (desiredReader self)) readers = None.
Proof.
  intros Hno. destruct (find _ readers) as [r|] eqn:Hfind; [|reflexivity].
  apply find_some in Hfind as (Hin & Hr). apply strict_eq_true in Hr.
  destruct Hno. by exists r.
Qed.

Lemma opportunistic_true (self : STCS) :
  strict_eq (policy self) (JStr PolicyAuto) ||
  strict_eq (policy self) (JStr PolicyPersist) &&
  negb (truthy (desiredReader self)) ||
  strict_eq (desiredReader self) (JStr DesiredReaderAny) = true
  <-> opportunistic self.
Proof.
  unfold opportunistic.
  rewrite !orb_true_iff, andb_true_iff, negb_true_iff, !strict_eq_true.
  tauto.
Qed.

Lemma target_first (self : STCS) (readers : list Reader) :
  ~ matching self readers -> opportunistic self ->
  target self readers = serialNumber <$> readers !! 0%nat.
Proof.
  intros Hno Hopp. unfold target. rewrite (find_not_matching _ _ Hno).
  apply opportunistic_true in Hopp. by rewrite Hopp.
Qed.

Lemma target_none (self : STCS) (readers : list Reader) :
  ~ matching self readers -> ~ opportunistic self ->
  target self readers = None.
Proof.
  intros Hno Hopp. unfold target. rewrite (find_not_matching _ _ Hno).
  rewrite <- opportunistic_true in Hopp.
  by destruct (_ || _ || _).
Qed.

(** On a batch it acts on, the handler calls [connectReader] for its
    target and for nothing else. *)
Lemma onReadersDiscovered_connect_calls (readers : list Reader) (s : state) :
  readers <> [] ->
  truthy (desiredReader (this s)) = true ->
  connect_calls (effects (onReadersDiscovered StripeTerminal AsyncStorage readers s)) =
    match target (this s) readers with
    | Some id => [id]
    | None => []
    end.
Proof.
  intros Hne Hset. rewrite onReadersDiscovered_unfold by assumption.
  destruct (target (this s) readers) as [id|]; cbn [effects connect_calls].
  - destruct (connectReader StripeTerminal id) as [c|e].
    + destruct (connected_run c s) as (_ & _ & -> & _). reflexivity.
    + destruct (failed_quiet e s) as (-> & _). reflexivity.
  - by destruct (connect_quiet StripeTerminal JUndefined s) as (-> & _).
Qed.

(** C1.  A non-empty batch delivered while DesiredReader is set.  If a
    reader of the batch carries DesiredReader's identifier,
    [connectReader] is called once, with that identifier.  Otherwise, if
    the policy is Auto, or the policy is Persist with DesiredReader
    unset, or DesiredReader is the sentinel for any reader,
    [connectReader] is called once, with the identifier of the first
    reader of the batch.  Otherwise [connectReader] is not called,
    persistedReaderNotFound is emitted with the batch, and [connect()]
    runs.  When the call that was made resolves, DesiredReader is the
    identifier of the reader it resolved with. *)
Theorem discovery_selects_target (readers : list Reader) (s : state) :
  readers <> [] ->
  truthy (desiredReader (this s)) = true ->
  let r := onReadersDiscovered StripeTerminal AsyncStorage readers s in
  let restart := connect StripeTerminal JUndefined s in
  (matching (this s) readers ->
     connect_calls (effects r) = [desiredReader (this s)]) /\
  (~ matching (this s) readers -> opportunistic (this s) ->
     exists first,
       readers !! 0%nat = Some first /\
       connect_calls (effects r) = [serialNumber first]) /\
  (~ matching (this s) readers -> ~ opportunistic (this s) ->
     connect_calls (effects r) = [] /\
     effects r =
       [Emit EventReadersDiscovered (PReaders readers);
        Emit EventPersistedReaderNotFound (PReaders readers)] ++
       effects restart /\
     final r = final restart) /\
  (forall id c,
     In id (connect_calls (effects r)) ->
     connectReader StripeTerminal id = Resolved c ->
     desiredReader (this (final r)) = serialNumber c).
Proof.
  intros Hne Hset r restart. subst r restart.
  rewrite onReadersDiscovered_connect_calls by assumption.
  split; [|split; [|split]].
  - intros Hm. by rewrite (target_matching _ _ Hm).
  - intros Hno Hopp. rewrite (target_first _ _ Hno Hopp).
    destruct readers as [|first rest]; [done|].
    exists first. done.
  - intros Hno Hopp.
    rewrite onReadersDiscovered_unfold by assumption.
    rewrite (target_none _ _ Hno Hopp). done.
  - intros id c Hid Hc.
    rewrite onReadersDiscovered_unfold by assumption.
    destruct (target (this s) readers) as [id'|]; [|destruct Hid].
    destruct Hid as [<-|[]]. rewrite Hc. cbn [final].
    by destruct (connected_run c s) as (-> & _).
Qed.

(** C4.  A [connectReader] call made by the handler that rejects with
    [e]: connectionError is emitted with [e]; under a policy other than
    Manual [connect()] then runs, from the state the handler found;
    under Manual nothing follows the event and the state is untouched.
    The log line of a restarted connect follows the event exactly when
    the policy is not Manual. *)
Theorem connect_failure_is_surfaced
    (readers : list Reader) (s : state) (id : jsval) (e : error) :
  let r := onReadersDiscovered StripeTerminal AsyncStorage readers s in
  let restart := connect StripeTerminal JUndefined s in
  let surfaced :=
    [Emit EventReadersDiscovered (PReaders readers);
     Terminal (ConnectReader id);
     Emit EventConnectionError (PError e)] in
  In (Terminal (ConnectReader id)) (effects r) ->
  connectReader StripeTerminal id = Rejected e ->
  (policy (this s) <> JStr PolicyManual ->
     effects r = surfaced ++ effects restart /\ final r = final restart) /\
  (policy (this s) = JStr PolicyManual ->
     effects r = surfaced /\ final r = s) /\
  ((exists rest, effects r = surfaced ++ connecting_to "any" :: rest) <->
   policy (this s) <> JStr PolicyManual).
Proof.
  intros r restart surfaced Hcall He. subst r restart surfaced.
  destruct (decide (readers = [])) as [Hempty|Hne].
  { rewrite onReadersDiscovered_idle in Hcall by (by left).
    cbn in Hcall. destruct Hcall as [Hcall|[]]. discriminate Hcall. }
  destruct (truthy (desiredReader (this s))) eqn:Hset; cycle 1.
  { rewrite onReadersDiscovered_idle in Hcall by (by right).
    cbn in Hcall. destruct Hcall as [Hcall|[]]. discriminate Hcall. }
  apply connect_calls_In in Hcall.
  rewrite onReadersDiscovered_connect_calls in Hcall by assumption.
  rewrite onReadersDiscovered_unfold by assumption.
  destruct (target (this s) readers) as [id'|]; [|destruct Hcall].
  destruct Hcall as [<-|[]]. rewrite He, failed_run.
  destruct (strict_eq (policy (this s)) (JStr PolicyManual)) eqn:Hp;
    [apply strict_eq_true in Hp | apply strict_eq_false in Hp];
    cbn [final effects app].
  - split; [intros Hno; contradiction|].
    split; [intros _; split; reflexivity|]. split.
    + intros (rest & Hrest). discriminate Hrest.
    + intros Hno. contradiction.
  - split; [intros _; split; reflexivity|].
    split; [intros Hyes; contradiction|].
    split; [intros _; exact Hp|]. intros _.
    destruct (connect_starts StripeTerminal JUndefined s) as (rest & ->).
    exists (Terminal GetConnectedReader :: rest). reflexivity.
Qed.

End DiscoveryClaims.

Lemma discovery_selects_target_witness :
  (let s := service PolicyPersist (JStr "B") ∅ in
   let r := onReadersDiscovered idle_adapter working_storage
              [readerA; readerB] s in
   connect_calls (effects r) = [JStr "B"]) /\
  (let s := service PolicyAuto (JStr DesiredReaderAny) ∅ in
   let r := onReadersDiscovered idle_adapter working_storage
              [readerA; readerB] s in
   (exists first,
      [readerA; readerB] !! 0%nat = Some first /\
      connect_calls (effects r) = [serialNumber first]) /\
   desiredReader (this (final r)) = JStr "A") /\
  (let s := service PolicyPersist (JStr "A") ∅ in
   let r := onReadersDiscovered idle_adapter working_storage
              [readerB; readerC] s in
   connect_calls (effects r) = [] /\
   effects r =
     [Emit EventReadersDiscovered (PReaders [readerB; readerC]);
      Emit EventPersistedReaderNotFound (PReaders [readerB; readerC])] ++
     effects (connect idle_adapter JUndefined s) /\
   final r = final (connect idle_adapter JUndefined s)).
Proof.
  split; [|split].
  - destruct (discovery_selects_target idle_adapter working_storage
                [readerA; readerB] (service PolicyPersist (JStr "B") ∅))
      as (H & _); [discriminate|reflexivity|].
    apply H. exists readerB. split; [right; left; reflexivity|reflexivity].
  - destruct (discovery_selects_target idle_adapter working_storage
                [readerA; readerB]
                (service PolicyAuto (JStr DesiredReaderAny) ∅))
      as (_ & H & _ & Hok); [discriminate|reflexivity|].
    split.
    + apply H.
      * intros (x & [<-|[<-|[]]] & Hx); discriminate Hx.
      * left. reflexivity.
    + apply (Hok (JStr "A") readerA); [left; reflexivity|reflexivity].
  - destruct (discovery_selects_target idle_adapter working_storage
                [readerB; readerC] (service PolicyPersist (JStr "A") ∅))
      as (_ & _ & H & _); [discriminate|reflexivity|].
    apply H.
    + intros (x & [<-|[<-|[]]] & Hx); discriminate Hx.
    + intros [Hp|[[_ Hp]|Hp]]; discriminate Hp.
Defined.

Lemma connect_failure_is_surfaced_witness :
  (let s := service PolicyAuto (JStr DesiredReaderAny) ∅ in
   let r := onReadersDiscovered refusing_adapter working_storage [readerA] s in
   effects r =
     [Emit EventReadersDiscovered (PReaders [readerA]);
      Terminal (ConnectReader (JStr "A"));
      Emit EventConnectionError (PError (Error "could not connect"))] ++
     effects (connect refusing_adapter JUndefined s) /\
   final r = final (connect refusing_adapter JUndefined s)) /\
  (let s := service PolicyManual (JStr DesiredReaderAny) ∅ in
   let r := onReadersDiscovered refusing_adapter working_storage [readerA] s in
   effects r =
     [Emit EventReadersDiscovered (PReaders [readerA]);
      Terminal (ConnectReader (JStr "A"));
      Emit EventConnectionError (PError (Error "could not connect"))] /\
   final r = s).
Proof.
  split.
  - destruct (connect_failure_is_surfaced refusing_adapter working_storage
                [readerA] (service PolicyAuto (JStr DesiredReaderAny) ∅)
                (JStr "A") (Error "could not connect"))
      as (H & _); [right; left; reflexivity|reflexivity|].
    apply H. discriminate.
  - destruct (connect_failure_is_surfaced refusing_adapter working_storage
                [readerA] (service PolicyManual (JStr DesiredReaderAny) ∅)
                (JStr "A") (Error "could not connect"))
      as (_ & H & _); [right; left; reflexivity|reflexivity|].
    apply H. reflexivity.
Defined.

(** ** Who writes the store *)

Section Frame.

Variable StripeTerminal : Adapter.
Variable AsyncStorage : Backend.

Lemma not_persisting_false (p : jsval) :
  not_persisting p ->
  strict_eq p (JStr PolicyPersist) ||
  strict_eq p (JStr PolicyPersistManual) = false.
Proof.
  intros [H1 H2]. apply strict_eq_false in H1, H2. by rewrite H1, H2.
Qed.

Lemma connect_untouched (serialNumber : jsval) (s : state) :
  untouched s (connect StripeTerminal serialNumber s).
Proof.
  destruct (connect_quiet StripeTerminal serialNumber s) as (_ & Hw & Hf).
  unfold untouched. rewrite Hw, Hf. done.
Qed.

Lemma unsubscribe_untouched (ls : list subscription) (s : state) :
  let r := forEach (fun l => perform (Remove l)) ls s in
  store_writes (effects r) = [] /\ final r = s.
Proof.
  induction ls as [|l ls IH]; [done|].
  cbn [forEach]. unfold bind at 1. unfold perform at 1.
  cbn [result final effects]. cbn [app].
  destruct IH as [IHw IHf]. split; [|exact IHf].
  cbn [store_writes List.filter is_store_write]. exact IHw.
Qed.

Lemma onReadersDiscovered_untouched (readers : list Reader) (s : state) :
  not_persisting (policy (this s)) ->
  untouched s (onReadersDiscovered StripeTerminal AsyncStorage readers s).
Proof.
  intros Hp.
  destruct (decide (readers = [])) as [Hempty|Hne];
    [rewrite onReadersDiscovered_idle by (by left); done|].
  destruct (truthy (desiredReader (this s))) eqn:Hset;
    [|rewrite onReadersDiscovered_idle by (by right); done].
  rewrite onReadersDiscovered_unfold by assumption.
  destruct (target (this s) readers) as [id|].
  - destruct (connectReader StripeTerminal id) as [c|e].
    + destruct (connected_run AsyncStorage c s) as (_ & Hpol & _ & Hquiet).
      destruct (Hquiet (not_persisting_false _ Hp)) as (He & Hs).
      unfold untouched. cbn [effects final]. rewrite He, Hs, Hpol. done.
    + destruct (failed_quiet StripeTerminal e s) as (_ & Hw & Hs).
      unfold untouched. cbn [effects final].
      split; [exact Hw|]. split; [exact Hs|].
      rewrite failed_run.
      destruct (strict_eq (policy (this s)) (JStr PolicyManual)); [done|].
      apply connect_untouched.
  - destruct (connect_untouched JUndefined s) as (Hw & Hs & Hpol).
    unfold untouched. cbn [effects final]. done.
Qed.

(** Under a policy that does not persist, no operation but the direct
    call of the setter writes the store. *)
Lemma invoke_untouched (op : operation) (s : state) :
  is_setter op = false ->
  not_persisting (policy (this s)) ->
  untouched s (invoke StripeTerminal AsyncStorage op s).
Proof.
  intros Hop Hp.
  destruct op as [readers| |sn| | | | |sn| |]; cbn [invoke];
    try discriminate Hop.
  - by apply onReadersDiscovered_untouched.
  - unfold onUnexpectedDisconnect, detached.
    destruct (connect_untouched JUndefined s) as (Hw & Hs & Hpol). done.
  - apply connect_untouched.
  - unfold discover. js_prim.
    destruct (abortDiscoverReaders StripeTerminal); done.
  - unfold disconnect, bind, get_this. cbn [result final effects].
    rewrite (not_persisting_false _ Hp). js_prim. done.
  - unfold getReader. js_prim.
    destruct (getConnectedReader StripeTerminal); done.
  - unfold getPersistedReaderSerialNumber. js_prim.
    destruct (getItem_fails AsyncStorage); done.
  - unfold start, bind, get_this. cbn [result final effects].
    rewrite (not_persisting_false _ Hp).
    destruct (strict_eq (policy (this s)) (JStr PolicyAuto)); [|done].
    destruct (connect_untouched JUndefined s) as (Hw & Hs & Hpol). done.
  - unfold stop, bind, await, get_this. cbn [result final effects].
    destruct (disconnectReader StripeTerminal); [|done].
    cbn [result final effects].
    destruct (unsubscribe_untouched (listeners (this s)) s) as (Hw & Hf).
    unfold untouched. cbn [effects final app].
    rewrite store_writes_terminal, Hw, Hf. done.
Qed.

End Frame.

(** C7, as amended.  Under a policy that is neither Persist nor
    PersistManual (so under Auto and under Manual), a session of
    operations none of which is a direct call of
    [setPersistedReaderSerialNumber] makes no call that writes or removes
    an item of the store, and leaves the store as it found it, however the
    adapter and the store answer. *)
Theorem store_written_only_when_persisting
    (steps : list (Adapter * Backend * operation)) (s : state) :
  Forall (fun step => is_setter step.2 = false) steps ->
  not_persisting (policy (this s)) ->
  store_writes (session steps s).2 = [] /\
  storage (session steps s).1 = storage s /\
  policy (this (session steps s).1) = policy (this s).
Proof.
  intros Hsteps. revert s.
  induction Hsteps as [|[[adapter backend] op] steps Hop _ IH]; intros s Hp;
    [done|].
  cbn [session].
  destruct (invoke_untouched adapter backend op s Hop Hp) as (Hw & Hs & Hpol).
  destruct (session steps (final (invoke adapter backend op s)))
    as [s' es] eqn:Hrest.
  assert (not_persisting
            (policy (this (final (invoke adapter backend op s))))) as Hp'
    by (by rewrite Hpol).
  specialize (IH _ Hp'). rewrite Hrest in IH. cbn [fst snd] in *.
  destruct IH as (IHw & IHs & IHpol).
  rewrite store_writes_app, Hw, IHw, IHs, IHpol, Hs, Hpol. done.
Qed.

(** C7 as stated does not hold: the direct call of the setter writes the
    store under every policy.  Here under Auto, nothing stored before: the
    call issues [setItem] and the store then holds the identifier. *)
Lemma setter_writes_under_auto :
  let steps :=
    [(idle_adapter, working_storage,
      SetPersistedReaderSerialNumber (JStr "A"))] in
  let s := service PolicyAuto JNull ∅ in
  (policy (this s) = JStr PolicyAuto \/ policy (this s) = JStr PolicyManual) /\
  store_writes (session steps s).2 = [Storage (SetItem StorageKey "A")] /\
  storage s !! StorageKey = None /\
  storage (session steps s).1 !! StorageKey = Some "A" /\
  ~ (store_writes (session steps s).2 = [] /\
     storage (session steps s).1 = storage s).
Proof.
  cbn zeta. split; [left; reflexivity|].
  split; [reflexivity|]. split; [reflexivity|]. split; [reflexivity|].
  intros (Hw & _). discriminate Hw.
Qed.

Lemma store_written_only_when_persisting_witness :
  let steps :=
    [(idle_adapter, working_storage, Start);
     (idle_adapter, working_storage, OnReadersDiscovered [readerA; readerB]);
     (idle_adapter, working_storage, Disconnect);
     (idle_adapter, working_storage, Stop)] in
  let s := service PolicyAuto JNull {[StorageKey := "B"]} in
  store_writes (session steps s).2 = [] /\
  storage (session steps s).1 = storage s /\
  policy (this (session steps s).1) = policy (this s).
Proof.
  apply (store_written_only_when_persisting
           [(idle_adapter, working_storage, Start);
            (idle_adapter, working_storage, OnReadersDiscovered [readerA; readerB]);
            (idle_adapter, working_storage, Disconnect);
            (idle_adapter, working_storage, Stop)]
           (service PolicyAuto JNull {[StorageKey := "B"]})).
  - repeat constructor.
  - split; discriminate.
Defined.

(** ** The service from construction on *)

(** The bootstrap under Persist with nothing stored: construction leaves
    DesiredReader unset, so [start] ends with the sentinel as the desired
    reader. *)
Lemma bootstrap_persist_falls_back_to_any
    (StripeTerminal : Adapter) (AsyncStorage : Backend)
    (options : Options.t) (store : gmap string string) :
  Options.policy options = JStr PolicyPersist ->
  store !! StorageKey = None ->
  getItem_fails AsyncStorage = None ->
  let s := final (createConnectionService StripeTerminal options store) in
  desiredReader (this (final (start StripeTerminal AsyncStorage s))) =
    JStr DesiredReaderAny.
Proof.
  intros Hp Hstore Hg s.
  destruct (constructor_accepts_policy StripeTerminal options store
              PolicyPersist) as (_ & _ & Hpol & Hdesired & Hs);
    [right; left; reflexivity|exact Hp|].
  fold s in Hpol, Hdesired, Hs.
  rewrite (start_persisting StripeTerminal AsyncStorage s) by auto.
  cbn zeta. rewrite Hpol. js_constants. cbn [orb final].
  destruct (connect_quiet StripeTerminal (persisted (storage s)) s)
    as (_ & _ & ->).
  unfold desired_after_connect, persisted. rewrite Hs, Hstore, Hdesired.
  reflexivity.
Qed.

(** Auto, a batch of two readers after [start]: the first one is connected
    and becomes the desired reader. *)
Example auto_connects_to_first :
  let s0 := final (createConnectionService idle_adapter
                     (options_with PolicyAuto) ∅) in
  let run := session [(idle_adapter, working_storage, Start);
                      (idle_adapter, working_storage,
                       OnReadersDiscovered [readerA; readerB])] s0 in
  desiredReader (this run.1) = JStr "A" /\
  run.2 =
    [connecting_to "any"; Terminal GetConnectedReader;
     Terminal AbortDiscoverReaders; Terminal DisconnectReader;
     Terminal (DiscoverReaders (JStr "chipper2X") (JStr "bluetoothProximity"));
     Emit EventReadersDiscovered (PReaders [readerA; readerB]);
     Terminal (ConnectReader (JStr "A"))].
Proof. split; reflexivity. Qed.

(** Persist, reader A desired, a batch without it: nothing is connected,
    the batch is reported as not holding the persisted reader, and the
    discovery starts again. *)
Example persist_waits_for_its_reader :
  let s0 := final (createConnectionService idle_adapter
                     (options_with PolicyPersist) ∅) in
  let run := session [(idle_adapter, working_storage, Connect (JStr "A"));
                      (idle_adapter, working_storage,
                       OnReadersDiscovered [readerB; readerC])] s0 in
  desiredReader (this run.1) = JStr "A" /\
  connect_calls run.2 = [] /\
  drop 5 run.2 =
    [Emit EventReadersDiscovered (PReaders [readerB; readerC]);
     Emit EventPersistedReaderNotFound (PReaders [readerB; readerC]);
     connecting_to "any"; Terminal GetConnectedReader;
     Terminal AbortDiscoverReaders; Terminal DisconnectReader;
     Terminal (DiscoverReaders (JStr "chipper2X") (JStr "bluetoothProximity"))].
Proof. repeat split; reflexivity. Qed.

(** Persist: a connection is remembered, [disconnect] forgets it, and the
    next [start] looks for any reader. *)
Example persist_disconnect_forgets :
  let s0 := final (createConnectionService idle_adapter
                     (options_with PolicyPersist) ∅) in
  let connected_run :=
    session [(idle_adapter, working_storage, Start);
             (idle_adapter, working_storage,
              OnReadersDiscovered [readerA; readerB])] s0 in
  let disconnected_run :=
    session [(idle_adapter, working_storage, Disconnect)] connected_run.1 in
  let restarted_run :=
    session [(idle_adapter, working_storage, Start)] disconnected_run.1 in
  (desiredReader (this connected_run.1) = JStr "A" /\
   storage connected_run.1 !! StorageKey = Some "A") /\
  (desiredReader (this disconnected_run.1) = JNull /\
   storage disconnected_run.1 !! StorageKey = None) /\
  desiredReader (this restarted_run.1) = JStr DesiredReaderAny.
Proof. repeat split; reflexivity. Qed.

(** An already connected desired reader: [connect()] asks the adapter for
    the connected reader and makes no other call. *)
Example connect_again_is_idle :
  effects (connect adapter_connected_to_A JUndefined
             (service PolicyPersist (JStr "A") ∅)) =
    [connecting_to "any"; Terminal GetConnectedReader].
Proof. reflexivity. Qed.

(** * Further properties *)

(** ** Construction, discovery on demand, shutdown *)

Lemma forEach_remove (ls : list subscription) (s : state) :
  forEach (fun l => perform (Remove l)) ls s =
    Run (Resolved tt) s (map Remove ls).
Proof.
  induction ls as [|l ls IH]; [reflexivity|].
  cbn [forEach]. unfold bind.
  change (perform (Remove l) s) with (Run (Resolved tt) s [Remove l]).
  cbn [result final effects]. rewrite IH. reflexivity.
Qed.

Lemma stop_run (StripeTerminal : Adapter) (s : state) :
  stop StripeTerminal s =
    match disconnectReader StripeTerminal with
    | Resolved _ =>
        Run (Resolved tt) s
            (Terminal DisconnectReader :: map Remove (listeners (this s)))
    | Rejected e => Run (Rejected e) s [Terminal DisconnectReader]
    end.
Proof.
  unfold stop, bind, await, get_this. cbn [result final effects].
  destruct (disconnectReader StripeTerminal); [|reflexivity].
  cbn [result final effects]. rewrite forEach_remove. reflexivity.
Qed.

(** X1.  Construction with one of the four policies resolves, having
    subscribed the discovery handler and then the unexpected-disconnect
    handler and nothing else; the two handles are kept in that order,
    DesiredReader is [null], the store is not accessed, and the device
    type and the discovery mode are the options given when these are
    truthy and the adapter's Chipper 2X and Bluetooth proximity constants
    otherwise. *)
Theorem constructor_registers_and_defaults
    (StripeTerminal : Adapter) (options : Options.t)
    (store : gmap string string) (p : string) :
  In p Policies ->
  Options.policy options = JStr p ->
  let r := createConnectionService StripeTerminal options store in
  result r = Resolved tt /\
  effects r = [Terminal AddReadersDiscoveredListener;
               Terminal AddDidDisconnectUnexpectedlyFromReaderListener] /\
  listeners (this (final r)) =
    [ReadersDiscoveredSubscription; DidDisconnectUnexpectedlySubscription] /\
  policy (this (final r)) = JStr p /\
  desiredReader (this (final r)) = JNull /\
  storage (final r) = store /\
  deviceType (this (final r)) =
    (if truthy (Options.deviceType options)
     then Options.deviceType options
     else DeviceTypeChipper2X StripeTerminal) /\
  discoveryMode (this (final r)) =
    (if truthy (Options.discoveryMode options)
     then Options.discoveryMode options
     else DiscoveryMethodBluetoothProximity StripeTerminal).
Proof.
  intros Hp Ho r. subst r.
  unfold createConnectionService, constructor. rewrite Ho.
  cbn [In Policies] in Hp.
  destruct Hp as [<-|[<-|[<-|[<-|[]]]]]; cbn; done.
Qed.

Lemma constructor_registers_and_defaults_witness :
  let options :=
    {| Options.policy := JStr PolicyPersistManual;
       Options.deviceType := JStr "wisePad3";
       Options.discoveryMode := JStr EmptyString |} in
  let r := createConnectionService idle_adapter options {[StorageKey := "A"]} in
  result r = Resolved tt /\
  effects r = [Terminal AddReadersDiscoveredListener;
               Terminal AddDidDisconnectUnexpectedlyFromReaderListener] /\
  listeners (this (final r)) =
    [ReadersDiscoveredSubscription; DidDisconnectUnexpectedlySubscription] /\
  policy (this (final r)) = JStr PolicyPersistManual /\
  desiredReader (this (final r)) = JNull /\
  storage (final r) = {[StorageKey := "A"]} /\
  deviceType (this (final r)) = JStr "wisePad3" /\
  discoveryMode (this (final r)) = JStr "bluetoothProximity".
Proof.
  apply (constructor_registers_and_defaults idle_adapter
           {| Options.policy := JStr PolicyPersistManual;
              Options.deviceType := JStr "wisePad3";
              Options.discoveryMode := JStr EmptyString |}
           {[StorageKey := "A"]} PolicyPersistManual).
  - right. right. right. left. reflexivity.
  - reflexivity.
Defined.

(** X2.  [discover()] leaves the state as it is, DesiredReader included,
    and never calls [connectReader] nor [disconnectReader].  When the
    abort resolves, its calls are abortDiscoverReaders and then
    discoverReaders with the configured device type and discovery mode,
    and it settles as the discovery does; when the abort rejects, no
    discovery is started and it rejects with the abort's reason. *)
Theorem discover_only_scans (StripeTerminal : Adapter) (s : state) :
  let r := discover StripeTerminal s in
  let scan := DiscoverReaders (deviceType (this s)) (discoveryMode (this s)) in
  final r = s /\
  connect_calls (effects r) = [] /\
  ~ In (Terminal DisconnectReader) (effects r) /\
  (abortDiscoverReaders StripeTerminal = Resolved tt ->
     effects r = [Terminal AbortDiscoverReaders; Terminal scan] /\
     result r =
       discoverReaders StripeTerminal (deviceType (this s))
                       (discoveryMode (this s))) /\
  (forall e, abortDiscoverReaders StripeTerminal = Rejected e ->
     effects r = [Terminal AbortDiscoverReaders] /\
     result r = Rejected e).
Proof.
  intros r scan. subst r scan. unfold discover, bind, await, get_this.
  cbn [result final effects].
  destruct (abortDiscoverReaders StripeTerminal) as [[]|e'];
    cbn [result final effects app connect_calls].
  - split; [done|]. split; [done|]. split.
    + intros [H|[H|[]]]; discriminate H.
    + split; [done|]. intros e H. discriminate H.
  - split; [done|]. split; [done|]. split.
    + intros [H|[]]. discriminate H.
    + split; [intros H; discriminate H|].
      intros e H. by simplify_eq.
Qed.

Lemma discover_only_scans_witness :
  (let s := service PolicyManual JNull ∅ in
   let r := discover idle_adapter s in
   effects r =
     [Terminal AbortDiscoverReaders;
      Terminal (DiscoverReaders (JStr "chipper2X") (JStr "bluetoothProximity"))] /\
   result r = Resolved tt) /\
  (let s := service PolicyManual JNull ∅ in
   let r := discover (scripted_adapter (Resolved None) (fun _ => Rejected busy)
                        (Rejected busy) (Resolved tt)) s in
   effects r = [Terminal AbortDiscoverReaders] /\
   result r = Rejected busy).
Proof.
  split.
  - destruct (discover_only_scans idle_adapter (service PolicyManual JNull ∅))
      as (_ & _ & _ & H & _).
    exact (H eq_refl).
  - destruct (discover_only_scans
                (scripted_adapter (Resolved None) (fun _ => Rejected busy)
                   (Rejected busy) (Resolved tt))
                (service PolicyManual JNull ∅)) as (_ & _ & _ & _ & H).
    exact (H busy eq_refl).
Defined.

(** X3.  [stop()] leaves the state as it is.  When the adapter's
    disconnect resolves, every handle of [this.listeners] is removed, in
    order, after the disconnect, and [stop] resolves; when the disconnect
    rejects, [stop] rejects with its reason and no handle is removed: the
    two subscriptions stay registered. *)
Theorem stop_releases_subscriptions (StripeTerminal : Adapter) (s : state) :
  let r := stop StripeTerminal s in
  final r = s /\
  (disconnectReader StripeTerminal = Resolved tt ->
     result r = Resolved tt /\
     effects r =
       Terminal DisconnectReader :: map Remove (listeners (this s))) /\
  (forall e, disconnectReader StripeTerminal = Rejected e ->
     result r = Rejected e /\
     effects r = [Terminal DisconnectReader]).
Proof.
  intros r. subst r. rewrite stop_run.
  destruct (disconnectReader StripeTerminal) as [[]|e'];
    cbn [result final effects].
  - split; [done|]. split; [done|]. intros e H. discriminate H.
  - split; [done|]. split; [intros H; discriminate H|].
    intros e H. by simplify_eq.
Qed.

Lemma stop_releases_subscriptions_witness :
  (let r := stop idle_adapter (service PolicyAuto (JStr "A") ∅) in
   result r = Resolved tt /\
   effects r =
     [Terminal DisconnectReader; Remove ReadersDiscoveredSubscription;
      Remove DidDisconnectUnexpectedlySubscription]) /\
  (let r := stop (scripted_adapter (Resolved None) (fun _ => Rejected busy)
                    (Resolved tt) (Rejected busy))
                 (service PolicyAuto (JStr "A") ∅) in
   result r = Rejected busy /\
   effects r = [Terminal DisconnectReader]).
Proof.
  split.
  - destruct (stop_releases_subscriptions idle_adapter
                (service PolicyAuto (JStr "A") ∅)) as (_ & H & _).
    exact (H eq_refl).
  - destruct (stop_releases_subscriptions
                (scripted_adapter (Resolved None) (fun _ => Rejected busy)
                   (Resolved tt) (Rejected busy))
                (service PolicyAuto (JStr "A") ∅)) as (_ & _ & H).
    exact (H busy eq_refl).
Defined.

(** X4.  A service constructed with a valid policy and then stopped, the
    disconnect resolving: the handles [stop] removes are exactly the two
    subscriptions the constructor made, in the order it made them. *)
Theorem stop_undoes_construction
    (StripeTerminal Later : Adapter) (options : Options.t)
    (store : gmap string string) (p : string) :
  In p Policies ->
  Options.policy options = JStr p ->
  disconnectReader Later = Resolved tt ->
  let built := createConnectionService StripeTerminal options store in
  let r := stop Later (final built) in
  effects built = [Terminal AddReadersDiscoveredListener;
                   Terminal AddDidDisconnectUnexpectedlyFromReaderListener] /\
  result r = Resolved tt /\
  effects r = [Terminal DisconnectReader;
               Remove ReadersDiscoveredSubscription;
               Remove DidDisconnectUnexpectedlySubscription].
Proof.
  intros Hp Ho Hd built r. subst built r. rewrite stop_run, Hd.
  unfold createConnectionService, constructor. rewrite Ho.
  cbn [In Policies] in Hp.
  destruct Hp as [<-|[<-|[<-|[<-|[]]]]]; cbn; done.
Qed.

Lemma stop_undoes_construction_witness :
  let built := createConnectionService idle_adapter
                 (options_with PolicyManual) ∅ in
  let r := stop idle_adapter (final built) in
  effects built = [Terminal AddReadersDiscoveredListener;
                   Terminal AddDidDisconnectUnexpectedlyFromReaderListener] /\
  result r = Resolved tt /\
  effects r = [Terminal DisconnectReader;
               Remove ReadersDiscoveredSubscription;
               Remove DidDisconnectUnexpectedlySubscription].
Proof.
  apply (stop_undoes_construction idle_adapter idle_adapter
           (options_with PolicyManual) ∅ PolicyManual).
  - right. right. left. reflexivity.
  - reflexivity.
  - reflexivity.
Defined.

(** ** More on connect *)

(** X5.  However the adapter answers, rejections included, [connect]
    leaves a desired reader behind: the argument when it is truthy, else
    the previous DesiredReader when that is set, else the sentinel for any
    reader.  It changes nothing else of the service and nothing of the
    store, and [connect()] with no argument on a service that has a
    desired reader leaves the whole state as it was. *)
Theorem connect_always_sets_desired
    (StripeTerminal : Adapter) (target : jsval) (s : state) :
  let r := connect StripeTerminal target s in
  desiredReader (this (final r)) =
    desired_after_connect target (desiredReader (this s)) /\
  truthy (desiredReader (this (final r))) = true /\
  same_configuration s (final r) /\
  storage (final r) = storage s /\
  (truthy target = false -> truthy (desiredReader (this s)) = true ->
   final r = s).
Proof.
  intros r. subst r.
  destruct (connect_quiet StripeTerminal target s) as (_ & _ & ->).
  split; [reflexivity|]. split; [apply desired_after_connect_truthy|].
  split; [done|]. split; [reflexivity|].
  intros Ht Hd. unfold desired_after_connect. rewrite Ht, Hd.
  apply with_desiredReader_same.
Qed.

(** X6.  A rejection met by [connect] ends it: [connect] rejects with the
    same reason and the calls that would follow are not made.  If the
    query for the connected reader rejects, nothing is aborted; if the
    abort rejects, nothing is disconnected; if the disconnect rejects, no
    discovery is started. *)
Theorem connect_rejection_propagates
    (StripeTerminal : Adapter) (target : jsval) (s : state) (e : error) :
  let r := connect StripeTerminal target s in
  let desired := desired_after_connect target (desiredReader (this s)) in
  (getConnectedReader StripeTerminal = Rejected e ->
     result r = Rejected e /\
     terminal_calls (effects r) = [GetConnectedReader]) /\
  (forall reported,
     getConnectedReader StripeTerminal = Resolved reported ->
     ~ reports reported desired ->
     abortDiscoverReaders StripeTerminal = Rejected e ->
     result r = Rejected e /\
     terminal_calls (effects r) = [GetConnectedReader; AbortDiscoverReaders]) /\
  (forall reported,
     getConnectedReader StripeTerminal = Resolved reported ->
     ~ reports reported desired ->
     abortDiscoverReaders StripeTerminal = Resolved tt ->
     disconnectReader StripeTerminal = Rejected e ->
     result r = Rejected e /\
     terminal_calls (effects r) =
       [GetConnectedReader; AbortDiscoverReaders; DisconnectReader]).
Proof.
  intros r desired. subst r desired. rewrite connect_unfold.
  split; [|split].
  - intros ->. done.
  - intros reported -> Hno Ha. apply reportsb_false in Hno. rewrite Hno.
    rewrite (rediscover_abort_rejected _ _ e Ha). done.
  - intros reported -> Hno Ha Hd. apply reportsb_false in Hno. rewrite Hno.
    rewrite (rediscover_disconnect_rejected _ _ e Ha Hd). done.
Qed.

Lemma connect_rejection_propagates_witness :
  (let r := connect (scripted_adapter (Rejected busy) (fun _ => Rejected busy)
                       (Resolved tt) (Resolved tt))
                    JUndefined (service PolicyAuto JNull ∅) in
   result r = Rejected busy /\
   terminal_calls (effects r) = [GetConnectedReader]) /\
  (let r := connect (scripted_adapter (Resolved (Some readerA))
                       (fun _ => Rejected busy) (Rejected busy) (Resolved tt))
                    (JStr "B") (service PolicyAuto JNull ∅) in
   result r = Rejected busy /\
   terminal_calls (effects r) = [GetConnectedReader; AbortDiscoverReaders]) /\
  (let r := connect (scripted_adapter (Resolved None)
                       (fun _ => Rejected busy) (Resolved tt) (Rejected busy))
                    (JStr "B") (service PolicyAuto JNull ∅) in
   result r = Rejected busy /\
   terminal_calls (effects r) =
     [GetConnectedReader; AbortDiscoverReaders; DisconnectReader]).
Proof.
  split; [|split].
  - destruct (connect_rejection_propagates
                (scripted_adapter (Rejected busy) (fun _ => Rejected busy)
                   (Resolved tt) (Resolved tt))
                JUndefined (service PolicyAuto JNull ∅) busy) as (H & _).
    exact (H eq_refl).
  - destruct (connect_rejection_propagates
                (scripted_adapter (Resolved (Some readerA))
                   (fun _ => Rejected busy) (Rejected busy) (Resolved tt))
                (JStr "B") (service PolicyAuto JNull ∅) busy) as (_ & H & _).
    apply (H (Some readerA) eq_refl); [|reflexivity].
    intros (x & Hx & Hid). injection Hx as <-. discriminate Hid.
  - destruct (connect_rejection_propagates
                (scripted_adapter (Resolved None)
                   (fun _ => Rejected busy) (Resolved tt) (Rejected busy))
                (JStr "B") (service PolicyAuto JNull ∅) busy) as (_ & _ & H).
    apply (H None eq_refl); [|reflexivity|reflexivity].
    intros (x & Hx & _). discriminate Hx.
Defined.

(** ** More on the discovery handler *)

Lemma truthy_to_string (v : jsval) :
  truthy v = true -> JStr (to_string v) = v /\ to_string v <> EmptyString.
Proof.
  intros H. apply truthy_is_string in H as (id & -> & Hid). done.
Qed.

(** A [connectReader] call among the handler's effects is the call for its
    target, on a batch it acts on. *)
Lemma connect_call_made
    (StripeTerminal : Adapter) (AsyncStorage : Backend)
    (readers : list Reader) (s : state) (id : jsval) :
  In (Terminal (ConnectReader id))
     (effects (onReadersDiscovered StripeTerminal AsyncStorage readers s)) ->
  readers <> [] /\
  truthy (desiredReader (this s)) = true /\
  target (this s) readers = Some id.
Proof.
  intros Hcall.
  destruct (decide (readers = [])) as [Hempty|Hne].
  { rewrite onReadersDiscovered_idle in Hcall by (by left).
    cbn in Hcall. destruct Hcall as [Hcall|[]]. discriminate Hcall. }
  destruct (truthy (desiredReader (this s))) eqn:Hset; cycle 1.
  { rewrite onReadersDiscovered_idle in Hcall by (by right).
    cbn in Hcall. destruct Hcall as [Hcall|[]]. discriminate Hcall. }
  apply connect_calls_In in Hcall.
  rewrite onReadersDiscovered_connect_calls in Hcall by assumption.
  destruct (target (this s) readers) as [id'|]; [|destruct Hcall].
  destruct Hcall as [<-|[]]. done.
Qed.

(** X7.  An empty batch, or a batch delivered while no reader is desired,
    is only re-emitted as readersDiscovered: the adapter and the store are
    not called, nothing else is emitted, and the state is unchanged. *)
Theorem discovery_without_desire_is_inert
    (StripeTerminal : Adapter) (AsyncStorage : Backend)
    (readers : list Reader) (s : state) :
  readers = [] \/ truthy (desiredReader (this s)) = false ->
  let r := onReadersDiscovered StripeTerminal AsyncStorage readers s in
  result r = Resolved tt /\
  effects r = [Emit EventReadersDiscovered (PReaders readers)] /\
  final r = s.
Proof.
  intros H r. subst r. rewrite onReadersDiscovered_idle by exact H. done.
Qed.

Lemma discovery_without_desire_is_inert_witness :
  (let s := service PolicyAuto (JStr "A") ∅ in
   let r := onReadersDiscovered idle_adapter working_storage [] s in
   result r = Resolved tt /\
   effects r = [Emit EventReadersDiscovered (PReaders [])] /\
   final r = s) /\
  (let s := service PolicyAuto JNull ∅ in
   let r := onReadersDiscovered idle_adapter working_storage
              [readerA; readerB] s in
   result r = Resolved tt /\
   effects r = [Emit EventReadersDiscovered (PReaders [readerA; readerB])] /\
   final r = s).
Proof.
  split.
  - apply (discovery_without_desire_is_inert idle_adapter working_storage
             [] (service PolicyAuto (JStr "A") ∅)).
    left. reflexivity.
  - apply (discovery_without_desire_is_inert idle_adapter working_storage
             [readerA; readerB] (service PolicyAuto JNull ∅)).
    right. reflexivity.
Defined.

(** X8.  Whatever the batch, the state and the answers of the adapter and
    the store, the discovery handler returns normally (the read of
    [readers[0]] is never out of bounds, and no rejection escapes it), its
    first effect is the readersDiscovered event carrying the batch, and it
    calls [connectReader] at most once. *)
Theorem discovery_never_throws
    (StripeTerminal : Adapter) (AsyncStorage : Backend)
    (readers : list Reader) (s : state) :
  let r := onReadersDiscovered StripeTerminal AsyncStorage readers s in
  result r = Resolved tt /\
  (exists rest,
     effects r = Emit EventReadersDiscovered (PReaders readers) :: rest) /\
  length (connect_calls (effects r)) <= 1.
Proof.
  intros r. subst r.
  destruct (decide (readers = [])) as [Hempty|Hne];
    [rewrite onReadersDiscovered_idle by (by left); cbn; eauto|].
  destruct (truthy (desiredReader (this s))) eqn:Hset;
    [|rewrite onReadersDiscovered_idle by (by right); cbn; eauto].
  rewrite onReadersDiscovered_connect_calls by assumption.
  rewrite onReadersDiscovered_unfold by assumption.
  destruct (target (this s) readers) as [id|]; cbn; eauto.
Qed.

(** X9.  Under Persist and PersistManual, a [connectReader] call of the
    handler that resolves with a reader, the store answering: DesiredReader
    becomes that reader's identifier, the identifier is stored (the stored
    item is removed when the identifier is falsy), and readerPersisted is
    emitted with it.  What is remembered is the reader the adapter
    resolved with, whatever the identifier the call was made for. *)
Theorem discovery_persists_connected_reader
    (StripeTerminal : Adapter) (AsyncStorage : Backend)
    (readers : list Reader) (s : state) (id : jsval) (c : Reader) :
  let r := onReadersDiscovered StripeTerminal AsyncStorage readers s in
  policy (this s) = JStr PolicyPersist \/
  policy (this s) = JStr PolicyPersistManual ->
  In (Terminal (ConnectReader id)) (effects r) ->
  connectReader StripeTerminal id = Resolved c ->
  setItem_fails AsyncStorage = None ->
  removeItem_fails AsyncStorage = None ->
  desiredReader (this (final r)) = serialNumber c /\
  persisted (storage (final r)) = read_back (serialNumber c) /\
  effects r =
    [Emit EventReadersDiscovered (PReaders readers);
     Terminal (ConnectReader id);
     persist_call (serialNumber c);
     Emit EventReaderPersisted (PValue (serialNumber c))].
Proof.
  intros r Hp Hcall Hc Hset Hrem. subst r.
  apply connect_call_made in Hcall as (Hne & Hd & Htarget).
  rewrite onReadersDiscovered_unfold by assumption.
  rewrite Htarget, Hc. cbn zeta.
  unfold connected, setPersistedReaderSerialNumber, read_back, persist_call,
    persisted.
  js_prim. cbn [result final effects this policy desiredReader].
  destruct Hp as [Hp|Hp]; rewrite Hp; js_constants; cbn [orb];
    (destruct (truthy (serialNumber c)) eqn:Hserial; cbn [negb];
     [rewrite Hset; cbn; rewrite lookup_insert_eq;
      destruct (truthy_to_string _ Hserial) as (-> & _); done
     |rewrite Hrem; cbn; rewrite lookup_delete_eq; done]).
Qed.

Lemma discovery_persists_connected_reader_witness :
  let s := service PolicyPersistManual (JStr "A") ∅ in
  let r := onReadersDiscovered idle_adapter working_storage
             [readerB; readerA] s in
  desiredReader (this (final r)) = JStr "A" /\
  persisted (storage (final r)) = read_back (JStr "A") /\
  effects r =
    [Emit EventReadersDiscovered (PReaders [readerB; readerA]);
     Terminal (ConnectReader (JStr "A"));
     persist_call (JStr "A");
     Emit EventReaderPersisted (PValue (JStr "A"))].
Proof.
  apply (discovery_persists_connected_reader idle_adapter working_storage
           [readerB; readerA] (service PolicyPersistManual (JStr "A") ∅)
           (JStr "A") readerA).
  - right. reflexivity.
  - right. left. reflexivity.
  - reflexivity.
  - reflexivity.
  - reflexivity.
Defined.

(** X10.  Under Persist and PersistManual, a [connectReader] call of the
    handler that resolves while the store fails: the handler still returns
    normally and DesiredReader is the connected reader's identifier, but
    the store is unchanged and no readerPersisted event is emitted; the
    failure of the store is not reported anywhere. *)
Theorem discovery_swallows_store_failure
    (StripeTerminal : Adapter) (AsyncStorage : Backend)
    (readers : list Reader) (s : state) (id : jsval) (c : Reader)
    (e1 e2 : error) :
  let r := onReadersDiscovered StripeTerminal AsyncStorage readers s in
  policy (this s) = JStr PolicyPersist \/
  policy (this s) = JStr PolicyPersistManual ->
  In (Terminal (ConnectReader id)) (effects r) ->
  connectReader StripeTerminal id = Resolved c ->
  setItem_fails AsyncStorage = Some e1 ->
  removeItem_fails AsyncStorage = Some e2 ->
  result r = Resolved tt /\
  desiredReader (this (final r)) = serialNumber c /\
  storage (final r) = storage s /\
  effects r =
    [Emit EventReadersDiscovered (PReaders readers);
     Terminal (ConnectReader id);
     persist_call (serialNumber c)].
Proof.
  intros r Hp Hcall Hc Hset Hrem. subst r.
  apply connect_call_made in Hcall as (Hne & Hd & Htarget).
  rewrite onReadersDiscovered_unfold by assumption.
  rewrite Htarget, Hc. cbn zeta.
  unfold connected, setPersistedReaderSerialNumber, persist_call.
  js_prim. cbn [result final effects this policy desiredReader].
  destruct Hp as [Hp|Hp]; rewrite Hp; js_constants; cbn [orb];
    (destruct (truthy (serialNumber c)) eqn:Hserial; cbn [negb];
     [rewrite Hset|rewrite Hrem]; cbn; done).
Qed.

Lemma discovery_swallows_store_failure_witness :
  let s := service PolicyPersist (JStr DesiredReaderAny) ∅ in
  let r := onReadersDiscovered idle_adapter failing_storage
             [readerB; readerA] s in
  result r = Resolved tt /\
  desiredReader (this (final r)) = JStr "B" /\
  storage (final r) = storage s /\
  effects r =
    [Emit EventReadersDiscovered (PReaders [readerB; readerA]);
     Terminal (ConnectReader (JStr "B"));
     persist_call (JStr "B")].
Proof.
  apply (discovery_swallows_store_failure idle_adapter failing_storage
           [readerB; readerA] (service PolicyPersist (JStr DesiredReaderAny) ∅)
           (JStr "B") readerB
           (Error "storage unavailable") (Error "storage unavailable")).
  - left. reflexivity.
  - right. left. reflexivity.
  - reflexivity.
  - reflexivity.
  - reflexivity.
Defined.

(** ** What no operation does *)

Lemma same_configuration_refl (s : state) : same_configuration s s.
Proof. done. Qed.

Lemma same_configuration_trans (s1 s2 s3 : state) :
  same_configuration s1 s2 -> same_configuration s2 s3 ->
  same_configuration s1 s3.
Proof.
  intros (H1 & H2 & H3 & H4) (K1 & K2 & K3 & K4).
  unfold same_configuration. rewrite K1, K2, K3, K4. done.
Qed.

Lemma store_step_other_key (st st' : gmap string string) (k : string) :
  store_step st st' -> k <> StorageKey -> st' !! k = st !! k.
Proof.
  intros [->|[->|(id & _ & ->)]] Hk; [reflexivity| |].
  - by rewrite lookup_delete_ne.
  - by rewrite lookup_insert_ne.
Qed.

Lemma store_step_not_empty (st st' : gmap string string) :
  store_step st st' ->
  st !! StorageKey <> Some EmptyString ->
  st' !! StorageKey <> Some EmptyString.
Proof.
  intros [->|[->|(id & Hid & ->)]] Hst; [exact Hst| |].
  - by rewrite lookup_delete_eq.
  - rewrite lookup_insert_eq. congruence.
Qed.

(** The setter changes the store by one [store_step] and nothing else. *)
Lemma setPersistedReaderSerialNumber_frame
    (AsyncStorage : Backend) (v : jsval) (s : state) :
  let r := setPersistedReaderSerialNumber AsyncStorage v s in
  this (final r) = this s /\
  store_step (storage s) (storage (final r)) /\
  connect_calls (effects r) = [].
Proof.
  unfold setPersistedReaderSerialNumber. js_prim. unfold store_step.
  destruct (truthy v) eqn:Hv; cbn [negb].
  - destruct (truthy_to_string v Hv) as (_ & Hne).
    destruct (setItem_fails AsyncStorage); cbn; [by auto|].
    split; [done|]. split; [|done]. right. right. eauto.
  - destruct (removeItem_fails AsyncStorage); cbn; by auto.
Qed.

Lemma connect_frame (StripeTerminal : Adapter) (target : jsval) (s : state) :
  let r := connect StripeTerminal target s in
  same_configuration s (final r) /\
  store_step (storage s) (storage (final r)) /\
  connect_calls (effects r) = [].
Proof.
  intros r. subst r.
  destruct (connect_quiet StripeTerminal target s) as (Hc & _ & ->).
  split; [done|]. split; [by left|exact Hc].
Qed.

Lemma onReadersDiscovered_frame
    (StripeTerminal : Adapter) (AsyncStorage : Backend)
    (readers : list Reader) (s : state) :
  let r := onReadersDiscovered StripeTerminal AsyncStorage readers s in
  same_configuration s (final r) /\
  store_step (storage s) (storage (final r)).
Proof.
  intros r. subst r.
  destruct (decide (readers = [])) as [Hempty|Hne];
    [rewrite onReadersDiscovered_idle by (by left); split; [done|by left]|].
  destruct (truthy (desiredReader (this s))) eqn:Hset;
    [|rewrite onReadersDiscovered_idle by (by right); split; [done|by left]].
  rewrite onReadersDiscovered_unfold by assumption.
  destruct (target (this s) readers) as [id|]; cbn [final];
    [|destruct (connect_frame StripeTerminal JUndefined s) as (H1 & H2 & _);
      done].
  destruct (connectReader StripeTerminal id) as [c|e].
  - unfold connected. js_prim.
    cbn [result final effects this policy desiredReader].
    destruct (strict_eq (policy (this s)) (JStr PolicyPersist) ||
              strict_eq (policy (this s)) (JStr PolicyPersistManual));
      cbn [final]; [|split; [done|by left]].
    match goal with
    | |- context [setPersistedReaderSerialNumber AsyncStorage ?v ?s1] =>
        destruct (setPersistedReaderSerialNumber_frame AsyncStorage v s1)
          as (Hthis & Hstep & _)
    end.
    cbn zeta in Hthis, Hstep. unfold same_configuration.
    rewrite Hthis. cbn [this policy deviceType discoveryMode listeners].
    split; [done|exact Hstep].
  - rewrite failed_run.
    destruct (strict_eq (policy (this s)) (JStr PolicyManual)); cbn [final];
      [split; [done|by left]|].
    destruct (connect_frame StripeTerminal JUndefined s) as (H1 & H2 & _).
    done.
Qed.

(** Every operation keeps the configuration and changes the store by at
    most one [store_step]. *)
Lemma invoke_frame
    (StripeTerminal : Adapter) (AsyncStorage : Backend)
    (op : operation) (s : state) :
  let r := invoke StripeTerminal AsyncStorage op s in
  same_configuration s (final r) /\
  store_step (storage s) (storage (final r)).
Proof.
  destruct op as [readers| |sn| | | | |sn| |]; cbn [invoke]; cbn zeta.
  - apply onReadersDiscovered_frame.
  - unfold onUnexpectedDisconnect, detached. cbn [final].
    destruct (connect_frame StripeTerminal JUndefined s) as (H1 & H2 & _).
    done.
  - destruct (connect_frame StripeTerminal sn s) as (H1 & H2 & _). done.
  - unfold discover. js_prim.
    destruct (abortDiscoverReaders StripeTerminal); cbn;
      (split; [done|by left]).
  - unfold disconnect, bind, get_this. cbn [result final effects].
    destruct (strict_eq (policy (this s)) (JStr PolicyPersist) ||
              strict_eq (policy (this s)) (JStr PolicyPersistManual));
      [|js_prim; cbn; split; [done|by left]].
    destruct (setPersistedReaderSerialNumber_frame AsyncStorage JNull s)
      as (Hthis & Hstep & _). cbn zeta in Hthis, Hstep.
    destruct (result (setPersistedReaderSerialNumber AsyncStorage JNull s));
      js_prim; cbn [result final effects this storage policy deviceType
                    discoveryMode listeners];
      unfold same_configuration;
      cbn [result final effects this storage policy deviceType
           discoveryMode listeners];
      rewrite ?Hthis; done.
  - unfold getReader. js_prim.
    destruct (getConnectedReader StripeTerminal); cbn;
      (split; [done|by left]).
  - unfold getPersistedReaderSerialNumber. js_prim.
    destruct (getItem_fails AsyncStorage); cbn; (split; [done|by left]).
  - destruct (setPersistedReaderSerialNumber_frame AsyncStorage sn s)
      as (Hthis & Hstep & _). cbn zeta in Hthis, Hstep.
    unfold same_configuration. rewrite Hthis. done.
  - unfold start, bind, get_this. cbn [result final effects].
    destruct (strict_eq (policy (this s)) (JStr PolicyAuto)).
    + unfold detached. cbn [final].
      destruct (connect_frame StripeTerminal JUndefined s) as (H1 & H2 & _).
      done.
    + destruct (strict_eq (policy (this s)) (JStr PolicyPersist) ||
                strict_eq (policy (this s)) (JStr PolicyPersistManual));
        [|cbn; split; [done|by left]].
      unfold getPersistedReaderSerialNumber, bind, getItem, ret.
      cbn [result final effects].
      destruct (getItem_fails AsyncStorage);
        cbn [result final effects]; [split; [done|by left]|].
      unfold when.
      destruct (strict_eq (policy (this s)) (JStr PolicyPersist) || _);
        [|cbn; split; [done|by left]].
      unfold detached. cbn [final].
      match goal with
      | |- context [connect StripeTerminal ?v s] =>
          destruct (connect_frame StripeTerminal v s) as (H1 & H2 & _)
      end.
      done.
  - rewrite stop_run.
    destruct (disconnectReader StripeTerminal); cbn; (split; [done|by left]).
Qed.

Lemma session_frame
    (steps : list (Adapter * Backend * operation)) (s : state) :
  same_configuration s (session steps s).1 /\
  (forall k, k <> StorageKey ->
     storage (session steps s).1 !! k = storage s !! k) /\
  (storage s !! StorageKey <> Some EmptyString ->
   storage (session steps s).1 !! StorageKey <> Some EmptyString).
Proof.
  revert s.
  induction steps as [|[[adapter backend] op] steps IH]; intros s; [done|].
  cbn [session].
  destruct (invoke_frame adapter backend op s) as (Hconf & Hstep).
  cbn zeta in Hconf, Hstep.
  specialize (IH (final (invoke adapter backend op s))).
  destruct (session steps (final (invoke adapter backend op s)))
    as [s' es] eqn:Hrest.
  cbn [fst snd] in *. destruct IH as (IHconf & IHother & IHempty).
  split; [by eapply same_configuration_trans|]. split.
  - intros k Hk. rewrite (IHother k Hk).
    by apply store_step_other_key.
  - intros Hst. apply IHempty. by eapply store_step_not_empty.
Qed.

(** X11.  No sequence of operations changes the policy, the device type,
    the discovery mode or the kept subscription handles: what the
    constructor fixed stays fixed, however the adapter and the store
    answer. *)
Theorem configuration_is_immutable
    (steps : list (Adapter * Backend * operation)) (s : state) :
  same_configuration s (session steps s).1.
Proof. apply session_frame. Qed.

(** X12.  No sequence of operations touches an item of the store other
    than the one under [STCS.StorageKey]: every other key reads the same
    afterwards. *)
Theorem other_keys_are_untouched
    (steps : list (Adapter * Backend * operation)) (s : state) (k : string) :
  k <> StorageKey ->
  storage (session steps s).1 !! k = storage s !! k.
Proof. intros Hk. by apply session_frame. Qed.

Lemma other_keys_are_untouched_witness :
  let steps :=
    [(idle_adapter, working_storage, Start);
     (idle_adapter, working_storage, OnReadersDiscovered [readerA]);
     (idle_adapter, working_storage, Disconnect);
     (idle_adapter, working_storage, SetPersistedReaderSerialNumber (JStr "B"))] in
  let s := service PolicyPersist JNull {["theme" := "dark"]} in
  storage (session steps s).1 !! "theme" = storage s !! "theme".
Proof.
  apply (other_keys_are_untouched
           [(idle_adapter, working_storage, Start);
            (idle_adapter, working_storage, OnReadersDiscovered [readerA]);
            (idle_adapter, working_storage, Disconnect);
            (idle_adapter, working_storage,
             SetPersistedReaderSerialNumber (JStr "B"))]
           (service PolicyPersist JNull {["theme" := "dark"]}) "theme").
  discriminate.
Defined.

(** X13.  The service never stores the empty string as the persisted
    identifier: if the item under [STCS.StorageKey] is not the empty
    string, it is not the empty string after any sequence of operations.
    So a later read finds an identifier exactly when the item is there. *)
Theorem empty_identifier_is_never_stored
    (steps : list (Adapter * Backend * operation)) (s : state) :
  storage s !! StorageKey <> Some EmptyString ->
  storage (session steps s).1 !! StorageKey <> Some EmptyString /\
  (truthy (persisted (storage (session steps s).1)) = true <->
   is_Some (storage (session steps s).1 !! StorageKey)).
Proof.
  intros Hst.
  destruct (session_frame steps s) as (_ & _ & Hempty).
  specialize (Hempty Hst). split; [exact Hempty|].
  rewrite persisted_truthy. split.
  - intros (id & -> & _). by eexists.
  - intros [id Hid]. exists id. split; [exact Hid|].
    intros ->. contradiction.
Qed.

Lemma empty_identifier_is_never_stored_witness :
  let steps :=
    [(idle_adapter, working_storage,
      SetPersistedReaderSerialNumber (JStr EmptyString));
     (idle_adapter, working_storage, Connect (JStr "A"));
     (scripted_adapter (Resolved None)
        (fun _ => Resolved {| serialNumber := JStr EmptyString |})
        (Resolved tt) (Resolved tt),
      working_storage, OnReadersDiscovered [readerA])] in
  let s := service PolicyPersist JNull {[StorageKey := "B"]} in
  storage (session steps s).1 !! StorageKey <> Some EmptyString /\
  (truthy (persisted (storage (session steps s).1)) = true <->
   is_Some (storage (session steps s).1 !! StorageKey)).
Proof.
  apply (empty_identifier_is_never_stored
           [(idle_adapter, working_storage,
             SetPersistedReaderSerialNumber (JStr EmptyString));
            (idle_adapter, working_storage, Connect (JStr "A"));
            (scripted_adapter (Resolved None)
               (fun _ => Resolved {| serialNumber := JStr EmptyString |})
               (Resolved tt) (Resolved tt),
             working_storage, OnReadersDiscovered [readerA])]
           (service PolicyPersist JNull {[StorageKey := "B"]})).
  discriminate.
Defined.

(** X14.  [connectReader] is called by the discovery handler only: no
    other operation, [connect] and [start] included, ever calls it.  A
    connection is only ever made in answer to a discovery batch. *)
Theorem only_discovery_connects
    (StripeTerminal : Adapter) (AsyncStorage : Backend)
    (op : operation) (s : state) :
  is_discovery op = false ->
  connect_calls (effects (invoke StripeTerminal AsyncStorage op s)) = [].
Proof.
  intros Hop.
  destruct op as [readers| |sn| | | | |sn| |]; cbn [invoke];
    try discriminate Hop.
  - unfold onUnexpectedDisconnect, detached. cbn [effects].
    by destruct (connect_frame StripeTerminal JUndefined s) as (_ & _ & ->).
  - by destruct (connect_frame StripeTerminal sn s) as (_ & _ & ->).
  - unfold discover. js_prim.
    destruct (abortDiscoverReaders StripeTerminal); reflexivity.
  - unfold disconnect, bind, get_this. cbn [result final effects].
    destruct (strict_eq (policy (this s)) (JStr PolicyPersist) ||
              strict_eq (policy (this s)) (JStr PolicyPersistManual));
      [|js_prim; reflexivity].
    destruct (setPersistedReaderSerialNumber_frame AsyncStorage JNull s)
      as (_ & _ & Hc). cbn zeta in Hc.
    destruct (result (setPersistedReaderSerialNumber AsyncStorage JNull s));
      js_prim; cbn [result final effects app];
      rewrite ?app_nil_r, ?connect_calls_app, Hc; reflexivity.
  - unfold getReader. js_prim.
    destruct (getConnectedReader StripeTerminal); reflexivity.
  - unfold getPersistedReaderSerialNumber. js_prim.
    destruct (getItem_fails AsyncStorage); reflexivity.
  - by destruct (setPersistedReaderSerialNumber_frame AsyncStorage sn s)
      as (_ & _ & ->).
  - unfold start, bind, get_this. cbn [result final effects].
    destruct (strict_eq (policy (this s)) (JStr PolicyAuto)).
    + unfold detached. cbn [effects app].
      by destruct (connect_frame StripeTerminal JUndefined s) as (_ & _ & ->).
    + destruct (strict_eq (policy (this s)) (JStr PolicyPersist) ||
                strict_eq (policy (this s)) (JStr PolicyPersistManual));
        [|reflexivity].
      unfold getPersistedReaderSerialNumber, bind, getItem, ret.
      cbn [result final effects].
      destruct (getItem_fails AsyncStorage);
        cbn [result final effects]; [reflexivity|].
      unfold when.
      destruct (strict_eq (policy (this s)) (JStr PolicyPersist) || _);
        [|reflexivity].
      unfold detached. cbn [effects app connect_calls].
      match goal with
      | |- context [connect StripeTerminal ?v s] =>
          by destruct (connect_frame StripeTerminal v s) as (_ & _ & ->)
      end.
  - rewrite stop_run.
    destruct (disconnectReader StripeTerminal); cbn [effects connect_calls];
      [|reflexivity].
    induction (listeners (this s)) as [|l ls IH]; [reflexivity|exact IH].
Qed.

Lemma only_discovery_connects_witness :
  connect_calls
    (effects (invoke idle_adapter working_storage (Connect (JStr "A"))
                (service PolicyAuto JNull ∅))) = [].
Proof.
  apply (only_discovery_connects idle_adapter working_storage
           (Connect (JStr "A")) (service PolicyAuto JNull ∅)).
  reflexivity.
Defined.

(** ** How the operations compose *)

Lemma disconnect_not_persisting_run
    (StripeTerminal : Adapter) (AsyncStorage : Backend) (s : state) :
  not_persisting (policy (this s)) ->
  disconnect StripeTerminal AsyncStorage s =
    Run (disconnectReader StripeTerminal) s [Terminal DisconnectReader].
Proof.
  intros Hp. unfold disconnect, bind, get_this. cbn [result final effects].
  rewrite (not_persisting_false _ Hp). js_prim. cbn.
  by destruct (disconnectReader StripeTerminal).
Qed.

Lemma disconnect_persisting_run
    (StripeTerminal : Adapter) (AsyncStorage : Backend) (s : state) :
  policy (this s) = JStr PolicyPersist \/
  policy (this s) = JStr PolicyPersistManual ->
  removeItem_fails AsyncStorage = None ->
  disconnect StripeTerminal AsyncStorage s =
    Run (disconnectReader StripeTerminal) (forgotten s)
        [Storage (RemoveItem StorageKey);
         Emit EventReaderPersisted (PValue JNull);
         Terminal DisconnectReader].
Proof.
  intros Hp Hr. unfold disconnect, bind, get_this, forgotten.
  cbn [result final effects].
  destruct Hp as [Hp|Hp]; rewrite Hp; js_constants; cbn [orb];
    rewrite !(setPersistedReaderSerialNumber_falsy _ JNull s eq_refl Hr);
    js_prim; cbn; by destruct (disconnectReader StripeTerminal).
Qed.

(** X15.  Under a policy that does not persist, [disconnect()] does not
    make the service forget its reader: a later batch holding the desired
    reader leads to a [connectReader] call for it, whether or not the
    disconnect succeeded. *)
Theorem disconnect_without_persistence_keeps_reconnecting
    (StripeTerminal Later : Adapter) (AsyncStorage LaterStorage : Backend)
    (readers : list Reader) (s : state) :
  policy (this s) = JStr PolicyAuto \/ policy (this s) = JStr PolicyManual ->
  truthy (desiredReader (this s)) = true ->
  matching (this s) readers ->
  let disconnected := final (disconnect StripeTerminal AsyncStorage s) in
  connect_calls
    (effects (onReadersDiscovered Later LaterStorage readers disconnected)) =
    [desiredReader (this s)].
Proof.
  intros Hp Hd Hm disconnected. subst disconnected.
  rewrite disconnect_not_persisting_run
    by (split; destruct Hp as [-> | ->]; discriminate).
  cbn [final].
  assert (readers <> []) as Hne.
  { destruct Hm as (x & Hx & _). intros ->. destruct Hx. }
  rewrite onReadersDiscovered_connect_calls by assumption.
  by rewrite (target_matching _ _ Hm).
Qed.

Lemma disconnect_without_persistence_keeps_reconnecting_witness :
  let s := service PolicyManual (JStr "A") ∅ in
  let disconnected := final (disconnect idle_adapter working_storage s) in
  connect_calls
    (effects (onReadersDiscovered idle_adapter working_storage
                [readerB; readerA] disconnected)) =
    [JStr "A"].
Proof.
  apply (disconnect_without_persistence_keeps_reconnecting
           idle_adapter idle_adapter working_storage working_storage
           [readerB; readerA] (service PolicyManual (JStr "A") ∅)).
  - right. reflexivity.
  - reflexivity.
  - exists readerA. split; [right; left; reflexivity|reflexivity].
Defined.

(** X16.  Under Persist and PersistManual, once [disconnect()] has removed
    the stored identifier, discovery batches are no longer acted on: each
    is only re-emitted, until [connect] is called again. *)
Theorem disconnect_with_persistence_disarms_discovery
    (StripeTerminal Later : Adapter) (AsyncStorage LaterStorage : Backend)
    (readers : list Reader) (s : state) :
  policy (this s) = JStr PolicyPersist \/
  policy (this s) = JStr PolicyPersistManual ->
  removeItem_fails AsyncStorage = None ->
  let disconnected := final (disconnect StripeTerminal AsyncStorage s) in
  let r := onReadersDiscovered Later LaterStorage readers disconnected in
  effects r = [Emit EventReadersDiscovered (PReaders readers)] /\
  final r = disconnected /\
  persisted (storage disconnected) = JNull.
Proof.
  intros Hp Hr disconnected r. subst disconnected r.
  rewrite disconnect_persisting_run by assumption. cbn [final].
  rewrite onReadersDiscovered_idle by (right; reflexivity).
  cbn [effects final]. split; [done|]. split; [done|].
  unfold persisted, forgotten. cbn. by rewrite lookup_delete_eq.
Qed.

Lemma disconnect_with_persistence_disarms_discovery_witness :
  let s := service PolicyPersist (JStr "A") {[StorageKey := "A"]} in
  let disconnected := final (disconnect idle_adapter working_storage s) in
  let r := onReadersDiscovered idle_adapter working_storage
             [readerA] disconnected in
  effects r = [Emit EventReadersDiscovered (PReaders [readerA])] /\
  final r = disconnected /\
  persisted (storage disconnected) = JNull.
Proof.
  apply (disconnect_with_persistence_disarms_discovery
           idle_adapter idle_adapter working_storage working_storage
           [readerA] (service PolicyPersist (JStr "A") {[StorageKey := "A"]})).
  - left. reflexivity.
  - reflexivity.
Defined.

(** X17.  [disconnect()] under Persist and PersistManual when something
    fails.  If the removal from the store rejects, [disconnect] rejects
    with its reason, the adapter is never asked to disconnect, and the
    state is unchanged.  If the removal resolves and the adapter's
    disconnect rejects, [disconnect] rejects with that reason, but the
    stored identifier is already removed and DesiredReader already reset:
    nothing is rolled back. *)
Theorem disconnect_failures
    (StripeTerminal : Adapter) (AsyncStorage : Backend)
    (s : state) (e : error) :
  policy (this s) = JStr PolicyPersist \/
  policy (this s) = JStr PolicyPersistManual ->
  let r := disconnect StripeTerminal AsyncStorage s in
  (removeItem_fails AsyncStorage = Some e ->
     result r = Rejected e /\
     terminal_calls (effects r) = [] /\
     final r = s) /\
  (removeItem_fails AsyncStorage = None ->
   disconnectReader StripeTerminal = Rejected e ->
     result r = Rejected e /\
     desiredReader (this (final r)) = JNull /\
     storage (final r) !! StorageKey = None).
Proof.
  intros Hp r. subst r. split.
  - intros Hr. rewrite (disconnect_removal_rejected _ _ s e Hp Hr). done.
  - intros Hr Hd. rewrite disconnect_persisting_run by assumption.
    rewrite Hd. cbn [result final]. split; [done|]. split; [done|].
    unfold forgotten. cbn. by rewrite lookup_delete_eq.
Qed.

Lemma disconnect_failures_witness :
  (let s := service PolicyPersist (JStr "A") {[StorageKey := "A"]} in
   let r := disconnect idle_adapter failing_storage s in
   result r = Rejected (Error "storage unavailable") /\
   terminal_calls (effects r) = [] /\
   final r = s) /\
  (let s := service PolicyPersist (JStr "A") {[StorageKey := "A"]} in
   let r := disconnect (scripted_adapter (Resolved None)
                          (fun _ => Rejected busy) (Resolved tt)
                          (Rejected busy))
                       working_storage s in
   result r = Rejected busy /\
   desiredReader (this (final r)) = JNull /\
   storage (final r) !! StorageKey = None).
Proof.
  split.
  - destruct (disconnect_failures idle_adapter failing_storage
                (service PolicyPersist (JStr "A") {[StorageKey := "A"]})
                (Error "storage unavailable")) as (H & _);
      [left; reflexivity|].
    exact (H eq_refl).
  - destruct (disconnect_failures
                (scripted_adapter (Resolved None) (fun _ => Rejected busy)
                   (Resolved tt) (Rejected busy))
                working_storage
                (service PolicyPersist (JStr "A") {[StorageKey := "A"]})
                busy) as (_ & H); [left; reflexivity|].
    exact (H eq_refl eq_refl).
Defined.

(** X18.  An unexpected disconnect on a service with no desired reader
    makes any reader desired, under every policy, Manual included: the
    next non-empty batch, no reader of which is named like the sentinel,
    leads to a [connectReader] call for its first reader. *)
Theorem unexpected_disconnect_arms_any
    (StripeTerminal Later : Adapter) (AsyncStorage : Backend)
    (readers : list Reader) (first : Reader) (s : state) :
  truthy (desiredReader (this s)) = false ->
  readers !! 0%nat = Some first ->
  (forall x, In x readers -> serialNumber x <> JStr DesiredReaderAny) ->
  let armed := final (onUnexpectedDisconnect StripeTerminal s) in
  desiredReader (this armed) = JStr DesiredReaderAny /\
  connect_calls (effects (onReadersDiscovered Later AsyncStorage readers armed)) =
    [serialNumber first].
Proof.
  intros Hunset Hfirst Hnames armed. subst armed.
  unfold onUnexpectedDisconnect, detached. cbn [final].
  destruct (connect_quiet StripeTerminal JUndefined s) as (_ & _ & ->).
  unfold desired_after_connect. cbn [truthy]. rewrite Hunset.
  split; [reflexivity|].
  assert (readers <> []) as Hne by (intros ->; discriminate Hfirst).
  rewrite onReadersDiscovered_connect_calls by done.
  rewrite target_first.
  - by rewrite Hfirst.
  - intros (x & Hx & Hid). by apply (Hnames x Hx).
  - right. right. reflexivity.
Qed.

Lemma unexpected_disconnect_arms_any_witness :
  let s := service PolicyManual JNull ∅ in
  let armed := final (onUnexpectedDisconnect idle_adapter s) in
  desiredReader (this armed) = JStr DesiredReaderAny /\
  connect_calls (effects (onReadersDiscovered idle_adapter working_storage
                            [readerB; readerA] armed)) =
    [serialNumber readerB].
Proof.
  apply (unexpected_disconnect_arms_any idle_adapter idle_adapter
           working_storage [readerB; readerA] readerB
           (service PolicyManual JNull ∅)).
  - reflexivity.
  - reflexivity.
  - intros x [<-|[<-|[]]]; discriminate.
Defined.

(** X19.  [start()] does not wait for the connect it triggers: when the
    read of the store does not fail, [start] resolves under every policy,
    whatever the adapter does, a rejected [connect] included. *)
Theorem start_resolves_whatever_connect_does
    (StripeTerminal : Adapter) (AsyncStorage : Backend) (s : state) :
  getItem_fails AsyncStorage = None ->
  result (start StripeTerminal AsyncStorage s) = Resolved tt.
Proof.
  intros Hg. unfold start, bind, get_this. cbn [result final effects].
  destruct (strict_eq (policy (this s)) (JStr PolicyAuto)); [reflexivity|].
  destruct (strict_eq (policy (this s)) (JStr PolicyPersist) ||
            strict_eq (policy (this s)) (JStr PolicyPersistManual));
    [|reflexivity].
  unfold getPersistedReaderSerialNumber, bind, getItem, ret.
  cbn [result final effects]. rewrite Hg. cbn [result final effects].
  unfold when.
  destruct (strict_eq (policy (this s)) (JStr PolicyPersist) || _);
    reflexivity.
Qed.

Lemma start_resolves_whatever_connect_does_witness :
  let failing := scripted_adapter (Rejected busy) (fun _ => Rejected busy)
                   (Rejected busy) (Rejected busy) in
  result (start failing working_storage (service PolicyPersist JNull ∅)) =
    Resolved tt /\
  result (connect failing JNull (service PolicyPersist JNull ∅)) =
    Rejected busy.
Proof.
  split.
  - apply (start_resolves_whatever_connect_does
             (scripted_adapter (Rejected busy) (fun _ => Rejected busy)
                (Rejected busy) (Rejected busy))
             working_storage (service PolicyPersist JNull ∅)).
    reflexivity.
  - reflexivity.
Defined.

(** X20.  Two calls of [setPersistedReaderSerialNumber] in a row, the
    store answering: what a read then finds is decided by the second call
    alone, the identifier when it is a non-empty string and nothing
    otherwise, and the service itself is unchanged. *)
Theorem setter_last_write_wins
    (AsyncStorage : Backend) (v1 v2 : jsval) (s : state) :
  setItem_fails AsyncStorage = None ->
  removeItem_fails AsyncStorage = None ->
  let s1 := final (setPersistedReaderSerialNumber AsyncStorage v1 s) in
  let s2 := final (setPersistedReaderSerialNumber AsyncStorage v2 s1) in
  persisted (storage s2) = read_back v2 /\
  this s2 = this s.
Proof.
  intros Hset Hrem s1 s2. subst s1 s2.
  unfold setPersistedReaderSerialNumber, read_back, persisted. js_prim.
  rewrite Hset, Hrem.
  destruct (truthy v1); cbn [negb result final effects storage this];
    (destruct (truthy v2) eqn:Hv2;
     cbn [negb result final effects storage this];
     [rewrite lookup_insert_eq;
      destruct (truthy_to_string _ Hv2) as (-> & _); done
     |rewrite lookup_delete_eq; done]).
Qed.

Lemma setter_last_write_wins_witness :
  let s := service PolicyManual JNull ∅ in
  let s1 := final (setPersistedReaderSerialNumber working_storage (JStr "A") s) in
  let s2 := final (setPersistedReaderSerialNumber working_storage (JStr "B") s1) in
  persisted (storage s2) = read_back (JStr "B") /\
  this s2 = this s.
Proof.
  apply (setter_last_write_wins working_storage (JStr "A") (JStr "B")
           (service PolicyManual JNull ∅)); reflexivity.
Defined.

(** X21.  [connect(id)] with an identifier, then a batch holding a reader
    with that identifier: [connectReader] is called for it, under every
    policy and whatever reader was desired before, and however the
    connect itself settled. *)
Theorem connect_then_discovery_targets
    (StripeTerminal Later : Adapter) (AsyncStorage : Backend)
    (id : jsval) (readers : list Reader) (s : state) :
  truthy id = true ->
  (exists x, In x readers /\ serialNumber x = id) ->
  let asked := final (connect StripeTerminal id s) in
  connect_calls (effects (onReadersDiscovered Later AsyncStorage readers asked)) =
    [id].
Proof.
  intros Hid Hm asked. subst asked.
  destruct (connect_quiet StripeTerminal id s) as (_ & _ & ->).
  unfold desired_after_connect. rewrite Hid.
  assert (readers <> []) as Hne.
  { destruct Hm as (x & Hx & _). intros ->. destruct Hx. }
  rewrite onReadersDiscovered_connect_calls by done.
  by rewrite (target_matching (this (with_desiredReader id s)) readers Hm).
Qed.

Lemma connect_then_discovery_targets_witness :
  let asked := final (connect idle_adapter (JStr "B")
                        (service PolicyManual (JStr "A") ∅)) in
  connect_calls (effects (onReadersDiscovered idle_adapter working_storage
                            [readerA; readerB] asked)) =
    [JStr "B"].
Proof.
  apply (connect_then_discovery_targets idle_adapter idle_adapter
           working_storage (JStr "B") [readerA; readerB]
           (service PolicyManual (JStr "A") ∅)).
  - reflexivity.
  - exists readerB. split; [right; left; reflexivity|reflexivity].
Defined.

(** X22.  [connect(id)] with an identifier other than the sentinel, under
    a policy other than Auto, then a non-empty batch without that reader:
    no connection is attempted, the batch is reported as not holding the
    reader, the discovery is started again, and the reader stays the
    desired one. *)
Theorem targeted_connect_waits_for_its_reader
    (StripeTerminal Later : Adapter) (AsyncStorage : Backend)
    (id : jsval) (readers : list Reader) (s : state) :
  truthy id = true ->
  id <> JStr DesiredReaderAny ->
  policy (this s) <> JStr PolicyAuto ->
  readers <> [] ->
  (forall x, In x readers -> serialNumber x <> id) ->
  let asked := final (connect StripeTerminal id s) in
  let r := onReadersDiscovered Later AsyncStorage readers asked in
  connect_calls (effects r) = [] /\
  (exists rest,
     effects r =
       Emit EventReadersDiscovered (PReaders readers) ::
       Emit EventPersistedReaderNotFound (PReaders readers) ::
       connecting_to "any" :: Terminal GetConnectedReader :: rest) /\
  desiredReader (this (final r)) = id.
Proof.
  intros Hid Hany Hpol Hne Hnone asked r. subst asked r.
  destruct (connect_quiet StripeTerminal id s) as (_ & _ & ->).
  unfold desired_after_connect. rewrite Hid.
  assert (target (this (with_desiredReader id s)) readers = None) as Htarget.
  { apply target_none.
    - intros (x & Hx & Hx'). by apply (Hnone x Hx).
    - intros [Hp|[[_ Hp]|Hp]]; cbn in Hp; congruence. }
  rewrite onReadersDiscovered_connect_calls by done.
  rewrite onReadersDiscovered_unfold by done.
  rewrite Htarget. cbn [final effects]. split; [done|]. split.
  - destruct (connect_starts Later JUndefined (with_desiredReader id s))
      as (rest & ->).
    by exists rest.
  - destruct (connect_quiet Later JUndefined (with_desiredReader id s))
      as (_ & _ & ->).
    unfold desired_after_connect. cbn. by rewrite Hid.
Qed.

Lemma targeted_connect_waits_for_its_reader_witness :
  let asked := final (connect idle_adapter (JStr "A")
                        (service PolicyManual JNull ∅)) in
  let r := onReadersDiscovered idle_adapter working_storage
             [readerB; readerC] asked in
  connect_calls (effects r) = [] /\
  (exists rest,
     effects r =
       Emit EventReadersDiscovered (PReaders [readerB; readerC]) ::
       Emit EventPersistedReaderNotFound (PReaders [readerB; readerC]) ::
       connecting_to "any" :: Terminal GetConnectedReader :: rest) /\
  desiredReader (this (final r)) = JStr "A".
Proof.
  apply (targeted_connect_waits_for_its_reader idle_adapter idle_adapter
           working_storage (JStr "A") [readerB; readerC]
           (service PolicyManual JNull ∅)).
  - reflexivity.
  - discriminate.
  - discriminate.
  - discriminate.
  - intros x [<-|[<-|[]]]; discriminate.
Defined.

(** X23.  After a [connectReader] call of the handler has resolved with a
    reader that carries an identifier, a [connect()] made while the
    adapter reports that reader as connected does nothing but ask for it:
    no abort, no disconnect, no new discovery, under every policy. *)
Theorem connect_after_success_is_idle
    (StripeTerminal Later : Adapter) (AsyncStorage : Backend)
    (readers : list Reader) (s : state) (id : jsval) (c reported : Reader) :
  let r := onReadersDiscovered StripeTerminal AsyncStorage readers s in
  In (Terminal (ConnectReader id)) (effects r) ->
  connectReader StripeTerminal id = Resolved c ->
  truthy (serialNumber c) = true ->
  getConnectedReader Later = Resolved (Some reported) ->
  serialNumber reported = serialNumber c ->
  let again := connect Later JUndefined (final r) in
  result again = Resolved tt /\
  terminal_calls (effects again) = [GetConnectedReader] /\
  desiredReader (this (final again)) = serialNumber c.
Proof.
  intros r Hcall Hc Hserial Hq Hsame again. subst r again.
  apply connect_call_made in Hcall as (Hne & Hd & Htarget).
  rewrite onReadersDiscovered_unfold by assumption.
  rewrite Htarget, Hc. cbn [final].
  destruct (connected_run AsyncStorage c s) as (Hdesired & _).
  rewrite connect_unfold, Hq, Hdesired.
  unfold desired_after_connect. cbn [truthy]. rewrite Hserial.
  unfold reportsb. rewrite Hsame, strict_eq_refl.
  cbn [result effects final]. split; [done|]. split; [done|].
  reflexivity.
Qed.

Lemma connect_after_success_is_idle_witness :
  let r := onReadersDiscovered idle_adapter working_storage
             [readerA; readerB] (service PolicyPersist (JStr DesiredReaderAny) ∅) in
  let again := connect adapter_connected_to_A JUndefined (final r) in
  result again = Resolved tt /\
  terminal_calls (effects again) = [GetConnectedReader] /\
  desiredReader (this (final again)) = serialNumber readerA.
Proof.
  apply (connect_after_success_is_idle idle_adapter adapter_connected_to_A
           working_storage [readerA; readerB]
           (service PolicyPersist (JStr DesiredReaderAny) ∅)
           (JStr "A") readerA readerA).
  - right. left. reflexivity.
  - reflexivity.
  - reflexivity.
  - reflexivity.
  - reflexivity.
Defined.
